(** * GPA calculator: the grade calculus and the save handler

    A shallow embedding of [src/utils/calculations.ts] (the pure grade
    functions) and of the [handleSave] handler of
    [src/components/GPACalculator.tsx].

    Modelling decisions.
    - A JavaScript [number] is an exact rational [Q].  Comparisons are the
      rational ones and [===] on numbers is [Qeq_bool], so [10#2] and [5]
      select the same scale.  Results are compared with [==] (Qeq).
      Rounding, NaN and the infinities of IEEE doubles are outside this
      model: what is proved of comparisons, tables, lists and guards holds
      of the code as it runs; what is proved by algebra on sums, products
      and quotients is proved under exact rational arithmetic, and its
      statement says so.
    - The module [Double] transcribes the three weighted calculations and
      the class ladder once more over binary64 floating-point numbers, the
      numbers the code runs on.  It is used to show, on concrete inputs,
      where rounding departs from the exact results.
    - A JavaScript string is a [string]; a string is truthy iff it is not
      empty.
    - The object returned by [getGradeScale] is a finite map from grade
      letters to grade points ([gmap string Q]).
    - [Array.prototype.reduce (f, 0)] is a left fold from [0];
      [Array.prototype.filter] is [List.filter].
    - A handler of the React component is a function from the component
      state (and the clock readings it makes) to the next state and the
      trace of calls it makes on its collaborators. *)

From Stdlib Require Import QArith Qfield Lqa.
From Stdlib Require Import String Ascii.
From Stdlib Require SpecFloat.
From stdpp Require Import gmap strings list.

Local Open Scope Q_scope.

(** ** Data model ([src/types]) *)

(** Modelled from the spec: the declaration of [Course] in [src/types] is
    not part of the sources; the fields are the ones the component reads and
    writes ([id], [name], [credits], [grade], [gradePoint]). *)
Module Course.
Record t : Type := mk {
  id : string;
  name : string;
  credits : Q;
  grade : string;
  gradePoint : Q
}.
End Course.

(** Modelled from the spec: the declaration of [Semester] in [src/types] is
    not part of the sources; the fields are the ones [handleSave] fills in. *)
Module Semester.
Record t : Type := mk {
  id : string;
  name : string;
  courses : list Course.t;
  gpa : Q;
  totalCredits : Q;
  date : string
}.
End Semester.

(** ** JavaScript helpers *)

(** Truthiness of a string: every string but the empty one. *)
Definition truthy (s : string) : bool :=
  match s with
  | EmptyString => false
  | String _ _ => true
  end.

(** [String.prototype.trim]: white space and line terminators are removed
    from both ends.  A character of a [string] stands for a code unit below
    256, so the white space is TAB, LF, VT, FF, CR, SPACE and NBSP. *)
Definition isWhiteSpace (c : ascii) : bool :=
  let n := nat_of_ascii c in
  ((9 <=? n) && (n <=? 13) || (n =? 32) || (n =? 160))%nat.

Fixpoint trimStart (s : string) : string :=
  match s with
  | EmptyString => EmptyString
  | String c rest => if isWhiteSpace c then trimStart rest else s
  end.

Fixpoint trimEnd (s : string) : string :=
  match s with
  | EmptyString => EmptyString
  | String c rest =>
      match trimEnd rest with
      | EmptyString => if isWhiteSpace c then EmptyString else String c EmptyString
      | kept => String c kept
      end
  end.

Definition trim (s : string) : string := trimEnd (trimStart s).

(** The comparison operators on numbers, as booleans. *)
Definition num_lt (x y : Q) : bool :=
  match x ?= y with Lt => true | _ => false end.
Definition num_gt (x y : Q) : bool := num_lt y x.
Definition num_le (x y : Q) : bool :=
  match x ?= y with Gt => false | _ => true end.
Definition num_ge (x y : Q) : bool := num_le y x.
(** [x === y] on numbers. *)
Definition num_eq (x y : Q) : bool := Qeq_bool x y.

(** [xs.reduce((sum, x) => sum + f(x), 0)]. *)
Definition reduce_sum {A : Type} (f : A -> Q) (xs : list A) : Q :=
  fold_left (fun sum x => sum + f x) xs 0.

(** ** utils/calculations.ts *)

Definition scale5 : gmap string Q :=
  <["A+" := 5]> (<["A" := 9 # 2]> (<["B+" := 4]> (<["B" := 7 # 2]>
  (<["C+" := 3]> (<["C" := 5 # 2]> (<["D+" := 2]> (<["D" := 3 # 2]>
  (<["F" := 0]> ∅)))))))).

Definition scale4 : gmap string Q :=
  <["A+" := 4]> (<["A" := 4]> (<["B+" := 7 # 2]> (<["B" := 3]>
  (<["C+" := 5 # 2]> (<["C" := 2]> (<["D+" := 3 # 2]> (<["D" := 1]>
  (<["F" := 0]> ∅)))))))).

Definition getGradeScale (maxScale : Q) : gmap string Q :=
  if num_eq maxScale 5 then scale5 else scale4.

Definition calculateGPA (courses : list Course.t) : Q :=
  if (length courses =? 0)%nat then 0
  else
    let totalPoints :=
      reduce_sum (fun course => Course.gradePoint course * Course.credits course) courses in
    let totalCredits := reduce_sum Course.credits courses in
    if num_gt totalCredits 0 then totalPoints / totalCredits else 0.

Definition calculateCGPA (semesters : list Semester.t) : Q :=
  if (length semesters =? 0)%nat then 0
  else
    let totalPoints :=
      reduce_sum (fun sem => Semester.gpa sem * Semester.totalCredits sem) semesters in
    let totalCredits := reduce_sum Semester.totalCredits semesters in
    if num_gt totalCredits 0 then totalPoints / totalCredits else 0.

Definition calculateRequiredGPA
    (currentCGPA currentCredits targetCGPA remainingCredits : Q) : Q :=
  if num_le remainingCredits 0 then 0
  else
    let totalCreditsNeeded := currentCredits + remainingCredits in
    let totalPointsNeeded := targetCGPA * totalCreditsNeeded in
    let currentPoints := currentCGPA * currentCredits in
    let requiredPoints := totalPointsNeeded - currentPoints in
    requiredPoints / remainingCredits.

(** The object [{ class, color }] returned by [getAcademicClass]. *)
Record AcademicClass : Type := mkAcademicClass {
  class : string;
  color : string
}.

Definition getAcademicClass (cgpa gradingScale : Q) : AcademicClass :=
  if num_eq gradingScale 5 then
    if num_ge cgpa (9 # 2) then mkAcademicClass "First Class" "#1e8449"
    else if num_ge cgpa (7 # 2) then mkAcademicClass "Second Class (Upper)" "#196f3d"
    else if num_ge cgpa (5 # 2) then mkAcademicClass "Second Class (Lower)" "#5dade2"
    else if num_ge cgpa 2 then mkAcademicClass "Third Class" "#f5b041"
    else if num_ge cgpa (3 # 2) then mkAcademicClass "Pass" "#eb984e"
    else mkAcademicClass "Fail" "#ec7063"
  else
    if num_ge cgpa (18 # 5) then mkAcademicClass "First Class" "#201e84"
    else if num_ge cgpa 3 then mkAcademicClass "Second Class (Upper)" "#e4d726"
    else if num_ge cgpa 2 then mkAcademicClass "Second Class (Lower)" "#c1e911"
    else if num_ge cgpa (3 # 2) then mkAcademicClass "Third Class" "#f5b041"
    else if num_ge cgpa 1 then mkAcademicClass "Pass" "#8b0c81"
    else mkAcademicClass "Fail" "#f0210a".

Definition getGradeFromMarks (marks gradingScale : Q) : string :=
  if num_lt marks 0 || num_gt marks 100 then ""
  else if num_eq gradingScale 5 then
    if num_ge marks 80 then "A+"
    else if num_ge marks 70 then "A"
    else if num_ge marks 65 then "B+"
    else if num_ge marks 60 then "B"
    else if num_ge marks 55 then "C+"
    else if num_ge marks 50 then "C"
    else if num_ge marks 45 then "D+"
    else if num_ge marks 40 then "D"
    else "F"
  else
    if num_ge marks 80 then "A"
    else if num_ge marks 75 then "B+"
    else if num_ge marks 70 then "B"
    else if num_ge marks 65 then "C+"
    else if num_ge marks 60 then "C"
    else if num_ge marks 55 then "D+"
    else if num_ge marks 50 then "D"
    else "F".

(** ** utils/calculations.ts over IEEE-754 doubles *)

Module Double.

(** A binary64 number: 53 bits of precision, infinities at exponent 1024,
    every operation rounded to nearest, ties to even. *)
Definition double : Type := SpecFloat.spec_float.

Definition of_Z (z : Z) : double := SpecFloat.binary_normalize 53 1024 z 0 false.

Definition add (x y : double) : double := SpecFloat.SFadd 53 1024 x y.
Definition sub (x y : double) : double := SpecFloat.SFsub 53 1024 x y.
Definition mul (x y : double) : double := SpecFloat.SFmul 53 1024 x y.
Definition div (x y : double) : double := SpecFloat.SFdiv 53 1024 x y.

(** [x < y], [x <= y] and [x === y]. *)
Definition ltb (x y : double) : bool := SpecFloat.SFltb x y.
Definition leb (x y : double) : bool := SpecFloat.SFleb x y.
Definition eqb (x y : double) : bool := SpecFloat.SFeqb x y.

(** The number a decimal literal denotes: [digits / 10 ^ places] rounded
    once ([digits] and the power of ten are below 2^53, so both are exact
    and the quotient is the double nearest to the decimal). *)
Definition decimal (digits : Z) (places : nat) : double :=
  div (of_Z digits) (of_Z (10 ^ Z.of_nat places)).

Module Course.
Record t : Type := mk {
  id : string;
  name : string;
  credits : double;
  grade : string;
  gradePoint : double
}.
End Course.

Module Semester.
Record t : Type := mk {
  id : string;
  name : string;
  courses : list Course.t;
  gpa : double;
  totalCredits : double;
  date : string
}.
End Semester.

Definition calculateGPA (courses : list Course.t) : double :=
  if (length courses =? 0)%nat then of_Z 0
  else
    let totalPoints :=
      fold_left
        (fun sum course => add sum (mul (Course.gradePoint course) (Course.credits course)))
        courses (of_Z 0) in
    let totalCredits :=
      fold_left (fun sum course => add sum (Course.credits course)) courses (of_Z 0) in
    if ltb (of_Z 0) totalCredits then div totalPoints totalCredits else of_Z 0.

Definition calculateCGPA (semesters : list Semester.t) : double :=
  if (length semesters =? 0)%nat then of_Z 0
  else
    let totalPoints :=
      fold_left
        (fun sum sem => add sum (mul (Semester.gpa sem) (Semester.totalCredits sem)))
        semesters (of_Z 0) in
    let totalCredits :=
      fold_left (fun sum sem => add sum (Semester.totalCredits sem)) semesters (of_Z 0) in
    if ltb (of_Z 0) totalCredits then div totalPoints totalCredits else of_Z 0.

Definition calculateRequiredGPA
    (currentCGPA currentCredits targetCGPA remainingCredits : double) : double :=
  if leb remainingCredits (of_Z 0) then of_Z 0
  else
    let totalCreditsNeeded := add currentCredits remainingCredits in
    let totalPointsNeeded := mul targetCGPA totalCreditsNeeded in
    let currentPoints := mul currentCGPA currentCredits in
    let requiredPoints := sub totalPointsNeeded currentPoints in
    div requiredPoints remainingCredits.

Definition getAcademicClass (cgpa gradingScale : double) : AcademicClass :=
  if eqb gradingScale (of_Z 5) then
    if leb (decimal 45 1) cgpa then mkAcademicClass "First Class" "#1e8449"
    else if leb (decimal 35 1) cgpa then mkAcademicClass "Second Class (Upper)" "#196f3d"
    else if leb (decimal 25 1) cgpa then mkAcademicClass "Second Class (Lower)" "#5dade2"
    else if leb (of_Z 2) cgpa then mkAcademicClass "Third Class" "#f5b041"
    else if leb (decimal 15 1) cgpa then mkAcademicClass "Pass" "#eb984e"
    else mkAcademicClass "Fail" "#ec7063"
  else
    if leb (decimal 36 1) cgpa then mkAcademicClass "First Class" "#201e84"
    else if leb (of_Z 3) cgpa then mkAcademicClass "Second Class (Upper)" "#e4d726"
    else if leb (of_Z 2) cgpa then mkAcademicClass "Second Class (Lower)" "#c1e911"
    else if leb (decimal 15 1) cgpa then mkAcademicClass "Third Class" "#f5b041"
    else if leb (of_Z 1) cgpa then mkAcademicClass "Pass" "#8b0c81"
    else mkAcademicClass "Fail" "#f0210a".

End Double.

(** ** components/GPACalculator.tsx *)

Module GPACalculator.

(** The [useState] cells of the component. *)
Record State : Type := mkState {
  semesterName : string;
  courses : list Course.t;
  courseMarks : gmap string Q;
  showSuccess : bool
}.

(** The calls a handler makes on its collaborators: the [onSave] and
    [onNavigate] props, [alert] and [setTimeout]. *)
Inductive Call : Type :=
| Alert (message : string)
| OnSave (semester : Semester.t)
| SetTimeout (delay : Q)
| OnNavigate (view : string).

(** What the handler reads from the clock: [Date.now().toString()] and
    [new Date().toISOString()]. *)
Record Clock : Type := mkClock {
  nowString : string;
  isoString : string
}.

(** The single empty row the form starts from and is reset to. *)
Definition emptyRow : Course.t := Course.mk "1" "" 0 "" 0.

(** [c => c.name && c.credits > 0 && c.grade] *)
Definition isValidCourse (c : Course.t) : bool :=
  truthy (Course.name c) && num_gt (Course.credits c) 0 && truthy (Course.grade c).

Definition handleSave (clock : Clock) (st : State) : State * list Call :=
  if negb (truthy (trim (semesterName st))) then
    (st, [Alert "Please enter a semester name"])
  else
    let validCourses := List.filter isValidCourse (courses st) in
    if (length validCourses =? 0)%nat then
      (st, [Alert "Please add at least one valid course"])
    else
      let semester :=
        {| Semester.id := nowString clock;
           Semester.name := semesterName st;
           Semester.courses := validCourses;
           Semester.gpa := calculateGPA validCourses;
           Semester.totalCredits := reduce_sum Course.credits validCourses;
           Semester.date := isoString clock |} in
      ({| semesterName := "";
          courses := [emptyRow];
          courseMarks := ∅;
          showSuccess := true |},
       [OnSave semester; SetTimeout 3000; OnNavigate "dashboard"]).

(** [gradeScale[grade] || 0] with [gradeScale = getGradeScale(gradingScale)]:
    the point of a key of the scale, 0 for a key the scale does not have.
    (The names an object inherits from [Object.prototype] are not grades
    and are left out of the model.) *)
Definition gradePointOf (gradingScale : Q) (grade : string) : Q :=
  match getGradeScale gradingScale !! grade with
  | Some point => if num_eq point 0 then 0 else point
  | None => 0
  end.

(** [c => c.credits > 0 && c.grade] *)
Definition isGradedCourse (c : Course.t) : bool :=
  num_gt (Course.credits c) 0 && truthy (Course.grade c).

(** The GPA shown while the form is edited. *)
Definition gpa (st : State) : Q :=
  calculateGPA (List.filter isGradedCourse (courses st)).

(** The total of credits shown under it:
    [courses.reduce((sum, c) => sum + c.credits, 0)]. *)
Definition shownCredits (st : State) : Q :=
  reduce_sum Course.credits (courses st).

(** The state the component is mounted with. *)
Definition initialState : State :=
  {| semesterName := ""; courses := [emptyRow]; courseMarks := ∅;
     showSuccess := false |}.

Definition addCourse (clock : Clock) (st : State) : State :=
  let newId := nowString clock in
  {| semesterName := semesterName st;
     courses := courses st ++ [Course.mk newId "" 0 "" 0];
     courseMarks := courseMarks st;
     showSuccess := showSuccess st |}.

Definition removeCourse (id : string) (st : State) : State :=
  if (1 <? length (courses st))%nat then
    {| semesterName := semesterName st;
       courses := List.filter (fun c => negb (String.eqb (Course.id c) id)) (courses st);
       courseMarks := delete id (courseMarks st);
       showSuccess := showSuccess st |}
  else st.

Definition updateMarks (gradingScale : Q) (id : string) (marks : Q) (st : State)
  : State :=
  let grade := getGradeFromMarks marks gradingScale in
  let gradePoint := gradePointOf gradingScale grade in
  {| semesterName := semesterName st;
     courses :=
       List.map
         (fun course =>
            if String.eqb (Course.id course) id then
              Course.mk (Course.id course) (Course.name course)
                (Course.credits course) grade gradePoint
            else course)
         (courses st);
     courseMarks := <[id := marks]> (courseMarks st);
     showSuccess := showSuccess st |}.

(** The [(field, value)] pair [updateCourse] is given: a key of [Course]
    and a value of the type of that field. *)
Inductive FieldValue : Type :=
| IdValue (value : string)
| NameValue (value : string)
| CreditsValue (value : Q)
| GradeValue (value : string)
| GradePointValue (value : Q).

(** [{ ...course, [field]: value }] *)
Definition setField (course : Course.t) (fv : FieldValue) : Course.t :=
  match fv with
  | IdValue value =>
      Course.mk value (Course.name course) (Course.credits course)
        (Course.grade course) (Course.gradePoint course)
  | NameValue value =>
      Course.mk (Course.id course) value (Course.credits course)
        (Course.grade course) (Course.gradePoint course)
  | CreditsValue value =>
      Course.mk (Course.id course) (Course.name course) value
        (Course.grade course) (Course.gradePoint course)
  | GradeValue value =>
      Course.mk (Course.id course) (Course.name course) (Course.credits course)
        value (Course.gradePoint course)
  | GradePointValue value =>
      Course.mk (Course.id course) (Course.name course) (Course.credits course)
        (Course.grade course) value
  end.

Definition updateCourse (gradingScale : Q) (id : string) (fv : FieldValue)
    (st : State) : State :=
  {| semesterName := semesterName st;
     courses :=
       List.map
         (fun course =>
            if String.eqb (Course.id course) id then
              let updated := setField course fv in
              match fv with
              | GradeValue value =>
                  Course.mk (Course.id updated) (Course.name updated)
                    (Course.credits updated) (Course.grade updated)
                    (gradePointOf gradingScale value)
              | _ => updated
              end
            else course)
         (courses st);
     courseMarks := courseMarks st;
     showSuccess := showSuccess st |}.

(** What the rendered form can raise: typing in the semester name, in the
    name, credits and marks of a row, the remove, add and save buttons, and
    the timer [handleSave] starts, which hides the success message. *)
Inductive Event : Type :=
| TypeSemesterName (value : string)
| TypeCourseName (id value : string)
| TypeCredits (id : string) (credits : Q)
| TypeMarks (id : string) (marks : Q)
| ClickRemove (id : string)
| ClickAdd (clock : Clock)
| ClickSave (clock : Clock)
| SuccessTimeout.

Definition handle (gradingScale : Q) (e : Event) (st : State) : State * list Call :=
  match e with
  | TypeSemesterName value =>
      ({| semesterName := value; courses := courses st;
          courseMarks := courseMarks st; showSuccess := showSuccess st |}, [])
  | TypeCourseName id value => (updateCourse gradingScale id (NameValue value) st, [])
  | TypeCredits id credits => (updateCourse gradingScale id (CreditsValue credits) st, [])
  | TypeMarks id marks => (updateMarks gradingScale id marks st, [])
  | ClickRemove id => (removeCourse id st, [])
  | ClickAdd clock => (addCourse clock st, [])
  | ClickSave clock => handleSave clock st
  | SuccessTimeout =>
      ({| semesterName := semesterName st; courses := courses st;
          courseMarks := courseMarks st; showSuccess := false |}, [])
  end.

(** A session of the mounted form: its events handled in order, each on
    the state the one before left, with the calls made along the way. *)
Fixpoint run (gradingScale : Q) (events : list Event) (st : State)
  : State * list Call :=
  match events with
  | [] => (st, [])
  | e :: rest =>
      let '(st1, calls1) := handle gradingScale e st in
      let '(st2, calls2) := run gradingScale rest st1 in
      (st2, calls1 ++ calls2)
  end.

End GPACalculator.

(** ** App.tsx: the list of saved semesters *)

Module App.

(** [setSemesters([...semesters, semester])] *)
Definition addSemester (semesters : list Semester.t) (semester : Semester.t)
  : list Semester.t :=
  semesters ++ [semester].

(** [setSemesters(semesters.filter(s => s.id !== id))] *)
Definition deleteSemester (semesters : list Semester.t) (id : string)
  : list Semester.t :=
  List.filter (fun s => negb (String.eqb (Semester.id s) id)) semesters.

(** The component is mounted with [onSave={addSemester}]: the calls of one
    of its handlers, delivered to the list of semesters. *)
Definition deliver (calls : list GPACalculator.Call) (semesters : list Semester.t)
  : list Semester.t :=
  fold_left
    (fun saved call =>
       match call with
       | GPACalculator.OnSave semester => addSemester saved semester
       | _ => saved
       end)
    calls semesters.

(** [setSemesters(semesters.map(s => s.id === id ? updated : s))] *)
Definition updateSemester (semesters : list Semester.t) (id : string)
    (updated : Semester.t) : list Semester.t :=
  List.map (fun s => if String.eqb (Semester.id s) id then updated else s)
           semesters.

End App.

(** ** The specification's vocabulary *)

(** The sum of [f] over a list, written by recursion on the list. *)
Fixpoint sum_of {A : Type} (f : A -> Q) (xs : list A) : Q :=
  match xs with
  | [] => 0
  | x :: rest => f x + sum_of f rest
  end.

(** The invariant of the data model: the derived fields of a semester agree
    with its courses, and each course is complete. *)
Definition consistent (s : Semester.t) : Prop :=
  Semester.gpa s = calculateGPA (Semester.courses s) /\
  Semester.totalCredits s == sum_of Course.credits (Semester.courses s) /\
  Forall (fun c => 0 < Course.credits c /\ Course.grade c <> "")
         (Semester.courses s).

(** A row whose grade point is the one its grade has on the scale. *)
Definition coherent (gradingScale : Q) (c : Course.t) : Prop :=
  Course.gradePoint c = GPACalculator.gradePointOf gradingScale (Course.grade c).

(** The top of a scale, and the lowest marks that earn a letter above F. *)
Definition maxPoint (gradingScale : Q) : Q :=
  if num_eq gradingScale 5 then 5 else 4.

Definition passMark (gradingScale : Q) : Q :=
  if num_eq gradingScale 5 then 40 else 50.

(** The lowest grade point of a letter above F. *)
Definition passPoint (gradingScale : Q) : Q :=
  if num_eq gradingScale 5 then 3 # 2 else 1.

(** A string made of white space only (the empty string included). *)
Definition blank (s : string) : bool :=
  forallb isWhiteSpace (list_ascii_of_string s).

(** A call that, when it hands over a semester, hands over a consistent
    one with at least one course, all of them coherent rows. *)
Definition saves_coherent (gradingScale : Q) (call : GPACalculator.Call) : Prop :=
  match call with
  | GPACalculator.OnSave semester =>
      consistent semester /\ Semester.courses semester <> [] /\
      Forall (coherent gradingScale) (Semester.courses semester)
  | _ => True
  end.

(** All the courses of a list of semesters. *)
Definition allCourses (semesters : list Semester.t) : list Course.t :=
  List.concat (List.map Semester.courses semesters).

(** A descending threshold table read first match wins: the first row
    whose threshold the value reaches gives the result, [otherwise] is the
    result when no row matches. *)
Fixpoint first_match {A : Type} (table : list (Q * A)) (otherwise : A) (v : Q) : A :=
  match table with
  | [] => otherwise
  | (threshold, result) :: rows =>
      if Qle_bool threshold v then result else first_match rows otherwise v
  end.

Definition marks_table_5 : list (Q * string) :=
  [(80, "A+"); (70, "A"); (65, "B+"); (60, "B"); (55, "C+"); (50, "C");
   (45, "D+"); (40, "D")].

Definition marks_table_4 : list (Q * string) :=
  [(80, "A"); (75, "B+"); (70, "B"); (65, "C+"); (60, "C"); (55, "D+");
   (50, "D")].

(** The grade-point tables of the specification, as lookups. *)
Definition points_table_5 (g : string) : option Q :=
  if String.eqb g "A+" then Some 5
  else if String.eqb g "A" then Some (9 # 2)
  else if String.eqb g "B+" then Some 4
  else if String.eqb g "B" then Some (7 # 2)
  else if String.eqb g "C+" then Some 3
  else if String.eqb g "C" then Some (5 # 2)
  else if String.eqb g "D+" then Some 2
  else if String.eqb g "D" then Some (3 # 2)
  else if String.eqb g "F" then Some 0
  else None.

Definition points_table_4 (g : string) : option Q :=
  if String.eqb g "A+" then Some 4
  else if String.eqb g "A" then Some 4
  else if String.eqb g "B+" then Some (7 # 2)
  else if String.eqb g "B" then Some 3
  else if String.eqb g "C+" then Some (5 # 2)
  else if String.eqb g "C" then Some 2
  else if String.eqb g "D+" then Some (3 # 2)
  else if String.eqb g "D" then Some 1
  else if String.eqb g "F" then Some 0
  else None.

Definition class_table_5 : list (Q * string) :=
  [(9 # 2, "First Class"); (7 # 2, "Second Class (Upper)");
   (5 # 2, "Second Class (Lower)"); (2, "Third Class"); (3 # 2, "Pass")].

Definition class_table_4 : list (Q * string) :=
  [(18 # 5, "First Class"); (3, "Second Class (Upper)");
   (2, "Second Class (Lower)"); (3 # 2, "Third Class"); (1, "Pass")].

(** * Properties *)

Example calculateGPA_end_to_end :
  calculateGPA [Course.mk "1" "x" 3 "A" 4; Course.mk "2" "y" 4 "B" 3] == 24 # 7.
Proof. vm_compute. reflexivity. Qed.

(** ** Comparisons *)

Lemma num_lt_iff (x y : Q) : num_lt x y = true <-> x < y.
Proof.
  unfold num_lt. rewrite Qlt_alt.
  destruct (x ?= y); split; congruence.
Qed.

Lemma num_gt_iff (x y : Q) : num_gt x y = true <-> y < x.
Proof. apply num_lt_iff. Qed.

Lemma num_le_iff (x y : Q) : num_le x y = true <-> x <= y.
Proof.
  unfold num_le. rewrite Qle_alt.
  destruct (x ?= y); split; congruence.
Qed.

Lemma num_ge_iff (x y : Q) : num_ge x y = true <-> y <= x.
Proof. apply num_le_iff. Qed.

Lemma num_eq_iff (x y : Q) : num_eq x y = true <-> x == y.
Proof. apply Qeq_bool_iff. Qed.

Lemma num_gt_false_iff (x y : Q) : num_gt x y = false <-> x <= y.
Proof.
  rewrite <- not_true_iff_false, num_gt_iff. split.
  - apply Qnot_lt_le.
  - apply Qle_not_lt.
Qed.

Lemma num_ge_Qle_bool (x y : Q) : num_ge x y = Qle_bool y x.
Proof.
  apply eq_true_iff_eq. rewrite num_ge_iff, Qle_bool_iff. reflexivity.
Qed.

(** ** Sums *)

Lemma fold_left_sum_of {A : Type} (f : A -> Q) (xs : list A) (acc : Q) :
  fold_left (fun sum x => sum + f x) xs acc == acc + sum_of f xs.
Proof.
  revert acc. induction xs as [|x rest IH]; intros acc; simpl.
  - ring.
  - rewrite IH. ring.
Qed.

Lemma reduce_sum_sum_of {A : Type} (f : A -> Q) (xs : list A) :
  reduce_sum f xs == sum_of f xs.
Proof. unfold reduce_sum. rewrite fold_left_sum_of. ring. Qed.

Lemma sum_of_nonneg {A : Type} (f : A -> Q) (xs : list A) :
  Forall (fun x => 0 <= f x) xs -> 0 <= sum_of f xs.
Proof.
  induction 1 as [|x rest Hx _ IH]; simpl.
  - apply Qle_refl.
  - lra.
Qed.

Lemma sum_of_pos {A : Type} (f : A -> Q) (xs : list A) :
  xs <> [] -> Forall (fun x => 0 < f x) xs -> 0 < sum_of f xs.
Proof.
  intros Hne Hall. destruct Hall as [|x rest Hx Hrest]; [congruence|].
  simpl. assert (0 <= sum_of f rest).
  { apply sum_of_nonneg. eapply Forall_impl; [exact Hrest|].
    intros a Ha. simpl in Ha. lra. }
  lra.
Qed.

Lemma sum_of_scaled {A : Type} (f : A -> Q) (k : Q) (xs : list A) :
  sum_of (fun x => k * f x) xs == k * sum_of f xs.
Proof.
  induction xs as [|x rest IH]; simpl.
  - ring.
  - rewrite IH. ring.
Qed.

Lemma sum_of_ext {A : Type} (f g : A -> Q) (xs : list A) :
  Forall (fun x => f x == g x) xs -> sum_of f xs == sum_of g xs.
Proof.
  induction 1 as [|x rest Hx _ IH]; simpl.
  - reflexivity.
  - rewrite Hx, IH. reflexivity.
Qed.

(** ** The weighted means *)

(** What [calculateGPA] computes on every list, negative totals included:
    the quotient is taken exactly when the total of the credits is
    positive. *)
Lemma calculateGPA_guard (courses : list Course.t) :
  (0 < sum_of Course.credits courses ->
   calculateGPA courses ==
     sum_of (fun c => Course.gradePoint c * Course.credits c) courses
     / sum_of Course.credits courses) /\
  (sum_of Course.credits courses <= 0 -> calculateGPA courses == 0).
Proof.
  unfold calculateGPA.
  destruct courses as [|c rest] eqn:E; [simpl; split; [lra | reflexivity]|].
  rewrite <- E. replace (length courses =? 0)%nat with false
    by (subst courses; reflexivity).
  cbv zeta. split; intros H.
  - assert (G : num_gt (reduce_sum Course.credits courses) 0 = true).
    { apply num_gt_iff. rewrite reduce_sum_sum_of. exact H. }
    rewrite G, !reduce_sum_sum_of. reflexivity.
  - assert (G : num_gt (reduce_sum Course.credits courses) 0 = false).
    { apply num_gt_false_iff. rewrite reduce_sum_sum_of. exact H. }
    rewrite G. reflexivity.
Qed.

Lemma calculateCGPA_guard (semesters : list Semester.t) :
  (0 < sum_of Semester.totalCredits semesters ->
   calculateCGPA semesters ==
     sum_of (fun s => Semester.gpa s * Semester.totalCredits s) semesters
     / sum_of Semester.totalCredits semesters) /\
  (sum_of Semester.totalCredits semesters <= 0 -> calculateCGPA semesters == 0).
Proof.
  unfold calculateCGPA.
  destruct semesters as [|s rest] eqn:E; [simpl; split; [lra | reflexivity]|].
  rewrite <- E. replace (length semesters =? 0)%nat with false
    by (subst semesters; reflexivity).
  cbv zeta. split; intros H.
  - assert (G : num_gt (reduce_sum Semester.totalCredits semesters) 0 = true).
    { apply num_gt_iff. rewrite reduce_sum_sum_of. exact H. }
    rewrite G, !reduce_sum_sum_of. reflexivity.
  - assert (G : num_gt (reduce_sum Semester.totalCredits semesters) 0 = false).
    { apply num_gt_false_iff. rewrite reduce_sum_sum_of. exact H. }
    rewrite G. reflexivity.
Qed.

(** C1. On a list of courses (credits are non-negative, as the data model
    has them) [calculateGPA] is the credit-weighted mean
    sum(gradePoint_i * credits_i) / sum(credits_i); on the empty list and
    on a list whose credits sum to zero it is 0. *)
Theorem calculateGPA_weighted_mean (courses : list Course.t) :
  Forall (fun c => 0 <= Course.credits c) courses ->
  (courses = [] \/ sum_of Course.credits courses == 0 ->
   calculateGPA courses == 0) /\
  (~ sum_of Course.credits courses == 0 ->
   calculateGPA courses ==
     sum_of (fun c => Course.gradePoint c * Course.credits c) courses
     / sum_of Course.credits courses).
Proof.
  intros Hnn.
  destruct (calculateGPA_guard courses) as [Hpos Hzero].
  pose proof (sum_of_nonneg Course.credits courses Hnn) as Hsum.
  split.
  - intros [-> | H0]; [reflexivity|].
    apply Hzero. rewrite H0. apply Qle_refl.
  - intros Hne. apply Hpos.
    destruct (Qlt_le_dec 0 (sum_of Course.credits courses)) as [Hlt | Hle];
      [exact Hlt|].
    exfalso. apply Hne. apply Qle_antisym; assumption.
Qed.

Lemma calculateGPA_weighted_mean_witness :
  let courses := [Course.mk "1" "Algebra" 3 "A" 4; Course.mk "2" "Logic" 4 "B" 3] in
  Forall (fun c => 0 <= Course.credits c) courses /\
  calculateGPA courses ==
    sum_of (fun c => Course.gradePoint c * Course.credits c) courses
    / sum_of Course.credits courses.
Proof.
  intros courses.
  assert (Hnn : Forall (fun c => 0 <= Course.credits c) courses).
  { repeat constructor; discriminate. }
  split; [exact Hnn|].
  apply (proj2 (calculateGPA_weighted_mean courses Hnn)).
  discriminate.
Defined.

(** C2. On a list of semesters (total credits are non-negative)
    [calculateCGPA] is sum(gpa_i * totalCredits_i) / sum(totalCredits_i);
    on the empty list and on a list whose total credits sum to zero it is
    0.  The single semester with gpa 3.0 and 10 credits has CGPA 3.0. *)
Theorem calculateCGPA_weighted_mean (semesters : list Semester.t) :
  Forall (fun s => 0 <= Semester.totalCredits s) semesters ->
  (semesters = [] \/ sum_of Semester.totalCredits semesters == 0 ->
   calculateCGPA semesters == 0) /\
  (~ sum_of Semester.totalCredits semesters == 0 ->
   calculateCGPA semesters ==
     sum_of (fun s => Semester.gpa s * Semester.totalCredits s) semesters
     / sum_of Semester.totalCredits semesters) /\
  (forall id name courses date,
     calculateCGPA [Semester.mk id name courses 3 10 date] == 3).
Proof.
  intros Hnn.
  destruct (calculateCGPA_guard semesters) as [Hpos Hzero].
  pose proof (sum_of_nonneg Semester.totalCredits semesters Hnn) as Hsum.
  split; [|split].
  - intros [-> | H0]; [reflexivity|].
    apply Hzero. rewrite H0. apply Qle_refl.
  - intros Hne. apply Hpos.
    destruct (Qlt_le_dec 0 (sum_of Semester.totalCredits semesters)) as [Hlt | Hle];
      [exact Hlt|].
    exfalso. apply Hne. apply Qle_antisym; assumption.
  - intros id name courses date. reflexivity.
Qed.

Lemma calculateCGPA_weighted_mean_witness :
  let semesters :=
    [Semester.mk "1" "Fall" [] 3 10 "2024-09-01";
     Semester.mk "2" "Spring" [] (7 # 2) 12 "2025-02-01"] in
  Forall (fun s => 0 <= Semester.totalCredits s) semesters /\
  calculateCGPA semesters ==
    sum_of (fun s => Semester.gpa s * Semester.totalCredits s) semesters
    / sum_of Semester.totalCredits semesters.
Proof.
  intros semesters.
  assert (Hnn : Forall (fun s => 0 <= Semester.totalCredits s) semesters).
  { repeat constructor; discriminate. }
  split; [exact Hnn|].
  apply (proj1 (proj2 (calculateCGPA_weighted_mean semesters Hnn))).
  discriminate.
Defined.

(** C9 (amended). Under exact rational arithmetic, on a non-empty list of
    courses with positive credits whose grade points all equal one constant
    k, [calculateGPA] is k.  (In doubles the quotient can miss k in the last
    place: [calculateGPA_constant_rounds].) *)
Theorem calculateGPA_constant (courses : list Course.t) (k : Q) :
  courses <> [] ->
  Forall (fun c => 0 < Course.credits c) courses ->
  Forall (fun c => Course.gradePoint c == k) courses ->
  calculateGPA courses == k.
Proof.
  intros Hne Hpos Hk.
  pose proof (sum_of_pos Course.credits courses Hne Hpos) as Hsum.
  rewrite (proj1 (calculateGPA_guard courses) Hsum).
  rewrite (sum_of_ext _ (fun c => k * Course.credits c)).
  - rewrite sum_of_scaled. field. lra.
  - eapply Forall_impl; [exact Hk|]. intros c Hc. simpl in *.
    rewrite Hc. reflexivity.
Qed.

Lemma calculateGPA_constant_witness :
  calculateGPA [Course.mk "1" "Algebra" 3 "B+" (7 # 2);
                Course.mk "2" "Logic" (5 # 2) "B+" (7 # 2)] == 7 # 2.
Proof.
  apply calculateGPA_constant.
  - discriminate.
  - repeat constructor.
  - repeat constructor.
Defined.

(** ** The projection of the required GPA *)

Lemma calculateRequiredGPA_pos (currentCGPA currentCredits targetCGPA remainingCredits : Q) :
  0 < remainingCredits ->
  calculateRequiredGPA currentCGPA currentCredits targetCGPA remainingCredits ==
    (targetCGPA * (currentCredits + remainingCredits) - currentCGPA * currentCredits)
    / remainingCredits.
Proof.
  intros Hpos. unfold calculateRequiredGPA.
  destruct (num_le remainingCredits 0) eqn:E.
  - apply num_le_iff in E. exfalso. apply (Qlt_not_le _ _ Hpos E).
  - reflexivity.
Qed.

Lemma calculateRequiredGPA_nonpos (currentCGPA currentCredits targetCGPA remainingCredits : Q) :
  remainingCredits <= 0 ->
  calculateRequiredGPA currentCGPA currentCredits targetCGPA remainingCredits == 0.
Proof.
  intros Hle. unfold calculateRequiredGPA.
  apply num_le_iff in Hle. rewrite Hle. reflexivity.
Qed.

(** C3. With no remaining credits (remainingCredits <= 0)
    [calculateRequiredGPA] is 0; otherwise it is exactly
    (targetCGPA * (currentCredits + remainingCredits)
     - currentCGPA * currentCredits) / remainingCredits.
    Nothing clamps the result: every rational is the required GPA of some
    input, so it can be negative or above the top of the scale, and
    calculateRequiredGPA(3.0, 30, 3.5, 10) is 5.0. *)
Theorem calculateRequiredGPA_formula :
  (forall currentCGPA currentCredits targetCGPA remainingCredits,
     (remainingCredits <= 0 ->
      calculateRequiredGPA currentCGPA currentCredits targetCGPA remainingCredits == 0) /\
     (0 < remainingCredits ->
      calculateRequiredGPA currentCGPA currentCredits targetCGPA remainingCredits ==
        (targetCGPA * (currentCredits + remainingCredits) - currentCGPA * currentCredits)
        / remainingCredits)) /\
  (forall r : Q, exists currentCGPA currentCredits targetCGPA remainingCredits,
     0 <= currentCGPA /\ 0 <= currentCredits /\ 0 < remainingCredits /\
     calculateRequiredGPA currentCGPA currentCredits targetCGPA remainingCredits == r) /\
  calculateRequiredGPA 3 30 (7 # 2) 10 == 5 /\
  calculateRequiredGPA 4 30 1 10 == - 8 /\
  calculateRequiredGPA 3 30 4 10 == 7.
Proof.
  split; [|split; [|repeat split]].
  - intros cur cc tgt rc. split.
    + apply calculateRequiredGPA_nonpos.
    + apply calculateRequiredGPA_pos.
  - intros r. exists 0, 0, r, 1. repeat split; try discriminate.
    rewrite calculateRequiredGPA_pos by reflexivity. field.
Qed.

(** C10. Under exact rational arithmetic, for currentCredits >= 0 and
    remainingCredits > 0, a semester of remainingCredits credits whose GPA
    is the one [calculateRequiredGPA] asks for brings the CGPA of the two
    semesters to targetCGPA. *)
Theorem required_gpa_attains_target
    (currentCGPA currentCredits targetCGPA remainingCredits : Q)
    (done_so_far to_come : Semester.t) :
  0 <= currentCredits ->
  0 < remainingCredits ->
  Semester.gpa done_so_far == currentCGPA ->
  Semester.totalCredits done_so_far == currentCredits ->
  Semester.gpa to_come ==
    calculateRequiredGPA currentCGPA currentCredits targetCGPA remainingCredits ->
  Semester.totalCredits to_come == remainingCredits ->
  calculateCGPA [done_so_far; to_come] == targetCGPA.
Proof.
  intros Hcc Hrc Hg1 Ht1 Hg2 Ht2.
  destruct (calculateCGPA_guard [done_so_far; to_come]) as [Hpos _].
  simpl in Hpos. rewrite Hpos.
  - rewrite Hg1, Ht1, Hg2, Ht2.
    rewrite calculateRequiredGPA_pos by exact Hrc.
    field. split; lra.
  - rewrite Ht1, Ht2. lra.
Qed.

Lemma required_gpa_attains_target_witness :
  calculateCGPA
    [Semester.mk "1" "so far" [] 3 30 "2024-09-01";
     Semester.mk "2" "to come" [] (calculateRequiredGPA 3 30 (7 # 2) 10) 10
       "2025-02-01"] == 7 # 2.
Proof.
  apply (required_gpa_attains_target 3 30 (7 # 2) 10); simpl.
  - discriminate.
  - reflexivity.
  - reflexivity.
  - reflexivity.
  - reflexivity.
  - reflexivity.
Defined.

(** ** Marks to letter grades *)

Lemma in_range_guard (marks : Q) :
  num_lt marks 0 || num_gt marks 100 = true <-> marks < 0 \/ 100 < marks.
Proof.
  rewrite orb_true_iff, num_lt_iff, num_gt_iff. reflexivity.
Qed.

Lemma in_range_guard_false (marks : Q) :
  0 <= marks -> marks <= 100 -> num_lt marks 0 || num_gt marks 100 = false.
Proof.
  intros Hlo Hhi. apply not_true_iff_false. rewrite in_range_guard.
  intros [H | H]; [apply (Qlt_not_le _ _ H Hlo) | apply (Qlt_not_le _ _ H Hhi)].
Qed.

(** C4. For marks in [0,100] [getGradeFromMarks] reads the descending
    threshold table of the selected scale, first match wins: the 5.0 table
    when the selector is 5.0, the 4.0 table for every other selector, and F
    below the last threshold. *)
Theorem getGradeFromMarks_table (marks gradingScale : Q) :
  0 <= marks -> marks <= 100 ->
  (gradingScale == 5 ->
   getGradeFromMarks marks gradingScale = first_match marks_table_5 "F" marks) /\
  (~ gradingScale == 5 ->
   getGradeFromMarks marks gradingScale = first_match marks_table_4 "F" marks).
Proof.
  intros Hlo Hhi. unfold getGradeFromMarks.
  rewrite (in_range_guard_false marks Hlo Hhi).
  split; intros Hs.
  - apply num_eq_iff in Hs. rewrite Hs.
    rewrite !num_ge_Qle_bool. reflexivity.
  - rewrite <- num_eq_iff in Hs. apply not_true_is_false in Hs. rewrite Hs.
    rewrite !num_ge_Qle_bool. reflexivity.
Qed.

Lemma getGradeFromMarks_table_witness :
  getGradeFromMarks 80 5 = "A+" /\ getGradeFromMarks 80 4 = "A" /\
  getGradeFromMarks 39 4 = "F" /\ getGradeFromMarks (129 # 2) 999 = "C".
Proof.
  assert (H80 : 0 <= 80 /\ 80 <= 100) by (split; discriminate).
  assert (H39 : 0 <= 39 /\ 39 <= 100) by (split; discriminate).
  assert (H64 : 0 <= 129 # 2 /\ 129 # 2 <= 100) by (split; discriminate).
  split; [|split; [|split]].
  - apply (proj1 (getGradeFromMarks_table 80 5 (proj1 H80) (proj2 H80))).
    reflexivity.
  - apply (proj2 (getGradeFromMarks_table 80 4 (proj1 H80) (proj2 H80))).
    discriminate.
  - apply (proj2 (getGradeFromMarks_table 39 4 (proj1 H39) (proj2 H39))).
    discriminate.
  - apply (proj2 (getGradeFromMarks_table (129 # 2) 999 (proj1 H64) (proj2 H64))).
    discriminate.
Defined.

Local Ltac ladder :=
  repeat match goal with
    | |- context [if ?b then _ else _] => destruct b
    end.

(** C5. [getGradeFromMarks] is the empty string exactly when marks is
    below 0 or above 100; it is a total function (one of ten strings on
    every input) and on marks in [0,100] the grade is not empty. *)
Theorem getGradeFromMarks_empty_iff (marks gradingScale : Q) :
  (getGradeFromMarks marks gradingScale = "" <-> marks < 0 \/ 100 < marks) /\
  (0 <= marks /\ marks <= 100 -> getGradeFromMarks marks gradingScale <> "") /\
  In (getGradeFromMarks marks gradingScale)
     [""; "A+"; "A"; "B+"; "B"; "C+"; "C"; "D+"; "D"; "F"].
Proof.
  assert (Hiff : getGradeFromMarks marks gradingScale = "" <->
                 marks < 0 \/ 100 < marks).
  { rewrite <- in_range_guard. unfold getGradeFromMarks.
    destruct (num_lt marks 0 || num_gt marks 100).
    - split; reflexivity.
    - split; [|discriminate]. ladder; discriminate. }
  split; [exact Hiff|split].
  - intros [Hlo Hhi] E. apply Hiff in E.
    destruct E as [H | H];
      [apply (Qlt_not_le _ _ H Hlo) | apply (Qlt_not_le _ _ H Hhi)].
  - unfold getGradeFromMarks. ladder; simpl; tauto.
Qed.

Lemma getGradeFromMarks_empty_iff_witness :
  getGradeFromMarks 101 4 = "" /\ getGradeFromMarks (- 1) 5 = "" /\
  getGradeFromMarks 0 4 <> "" /\ getGradeFromMarks 100 5 <> "".
Proof.
  split; [|split; [|split]].
  - apply (proj1 (getGradeFromMarks_empty_iff 101 4)). right. reflexivity.
  - apply (proj1 (getGradeFromMarks_empty_iff (- 1) 5)). left. reflexivity.
  - apply (proj1 (proj2 (getGradeFromMarks_empty_iff 0 4))). split; discriminate.
  - apply (proj1 (proj2 (getGradeFromMarks_empty_iff 100 5))). split; discriminate.
Defined.

(** ** Academic class *)

(** C7. [getAcademicClass] reads a descending six-band ladder: on the 5.0
    scale 4.5, 3.5, 2.5, 2.0 and 1.5 open First Class, Second Class
    (Upper), Second Class (Lower), Third Class and Pass; on every other
    scale 3.6, 3.0, 2.0, 1.5 and 1.0 do; below the last threshold the class
    is Fail.  So 3.6 on the 4.0 scale is First Class and 3.59 is Second
    Class (Upper). *)
Theorem getAcademicClass_ladder :
  (forall cgpa gradingScale,
     (gradingScale == 5 ->
      class (getAcademicClass cgpa gradingScale) = first_match class_table_5 "Fail" cgpa) /\
     (~ gradingScale == 5 ->
      class (getAcademicClass cgpa gradingScale) = first_match class_table_4 "Fail" cgpa)) /\
  class (getAcademicClass (18 # 5) 4) = "First Class" /\
  class (getAcademicClass (359 # 100) 4) = "Second Class (Upper)" /\
  class (getAcademicClass (9 # 2) 5) = "First Class".
Proof.
  split; [|repeat split].
  intros cgpa gradingScale. unfold getAcademicClass.
  split; intros Hs.
  - apply num_eq_iff in Hs. rewrite Hs.
    rewrite !num_ge_Qle_bool. simpl. ladder; reflexivity.
  - rewrite <- num_eq_iff in Hs. apply not_true_is_false in Hs. rewrite Hs.
    rewrite !num_ge_Qle_bool. simpl. ladder; reflexivity.
Qed.

(** ** Grade scales *)

Local Ltac lookup_row g :=
  match goal with
  | |- context [String.eqb g ?k] =>
      destruct (String.eqb_spec g k) as [-> | ?];
      [reflexivity | rewrite lookup_insert_ne by congruence]
  end.

Lemma scale5_lookup (g : string) : scale5 !! g = points_table_5 g.
Proof.
  unfold scale5, points_table_5.
  repeat lookup_row g. apply lookup_empty.
Qed.

Lemma scale4_lookup (g : string) : scale4 !! g = points_table_4 g.
Proof.
  unfold scale4, points_table_4.
  repeat lookup_row g. apply lookup_empty.
Qed.

(** C6. [getGradeScale 5.0] is exactly the table A+ 5.0, A 4.5, B+ 4.0,
    B 3.5, C+ 3.0, C 2.5, D+ 2.0, D 1.5, F 0.0 (and nothing else); for
    every other selector the result is exactly the table A+ 4.0, A 4.0,
    B+ 3.5, B 3.0, C+ 2.5, C 2.0, D+ 1.5, D 1.0, F 0.0, so 999 gives the
    same map as 4.0. *)
Theorem getGradeScale_tables :
  (forall maxScale g,
     maxScale == 5 -> getGradeScale maxScale !! g = points_table_5 g) /\
  (forall maxScale g,
     ~ maxScale == 5 -> getGradeScale maxScale !! g = points_table_4 g) /\
  (forall maxScale, ~ maxScale == 5 -> getGradeScale maxScale = getGradeScale 4) /\
  getGradeScale 999 = getGradeScale 4 /\
  dom (getGradeScale 5) = dom (getGradeScale 4) /\
  size (getGradeScale 5) = 9%nat.
Proof.
  assert (Hother : forall maxScale, ~ maxScale == 5 -> getGradeScale maxScale = scale4).
  { intros maxScale Hs. unfold getGradeScale.
    rewrite <- num_eq_iff in Hs. apply not_true_is_false in Hs.
    rewrite Hs. reflexivity. }
  split; [|split; [|split; [|split; [|split]]]].
  - intros maxScale g Hs. unfold getGradeScale.
    apply num_eq_iff in Hs. rewrite Hs. apply scale5_lookup.
  - intros maxScale g Hs. rewrite (Hother maxScale Hs). apply scale4_lookup.
  - intros maxScale Hs. rewrite (Hother maxScale Hs). reflexivity.
  - reflexivity.
  - apply set_eq. intros g. rewrite !elem_of_dom.
    change (getGradeScale 5) with scale5. change (getGradeScale 4) with scale4.
    rewrite scale5_lookup, scale4_lookup.
    unfold points_table_5, points_table_4.
    repeat match goal with
      | |- context [String.eqb g ?k] => destruct (String.eqb g k)
      end; split; intros [v Hv]; try discriminate; eauto.
  - vm_compute. reflexivity.
Qed.

(** ** Saving a semester *)

Lemma truthy_iff (s : string) : truthy s = true <-> s <> "".
Proof. destruct s; simpl; split; intros; congruence. Qed.

Lemma isValidCourse_iff (c : Course.t) :
  GPACalculator.isValidCourse c = true <->
  Course.name c <> "" /\ 0 < Course.credits c /\ Course.grade c <> "".
Proof.
  unfold GPACalculator.isValidCourse.
  rewrite !andb_true_iff, !truthy_iff, num_gt_iff. tauto.
Qed.

(** What a run of [handleSave] that calls [onSave] looks like. *)
Lemma handleSave_OnSave_inv clock st st' calls semester :
  GPACalculator.handleSave clock st = (st', calls) ->
  In (GPACalculator.OnSave semester) calls ->
  let validCourses := List.filter GPACalculator.isValidCourse (GPACalculator.courses st) in
  validCourses <> [] /\
  truthy (trim (GPACalculator.semesterName st)) = true /\
  semester =
    Semester.mk (GPACalculator.nowString clock) (GPACalculator.semesterName st)
      validCourses (calculateGPA validCourses)
      (reduce_sum Course.credits validCourses) (GPACalculator.isoString clock).
Proof.
  intros Hrun Hin validCourses. unfold GPACalculator.handleSave in Hrun.
  destruct (truthy (trim (GPACalculator.semesterName st))) eqn:Hname; simpl in Hrun.
  - fold validCourses in Hrun.
    destruct validCourses as [|c rest] eqn:Hvalid; simpl in Hrun.
    + inversion Hrun; subst. simpl in Hin.
      destruct Hin as [H | []]; discriminate.
    + inversion Hrun; subst. simpl in Hin.
      destruct Hin as [H | [H | [H | []]]]; try discriminate.
      inversion H. repeat split; congruence.
  - inversion Hrun; subst. simpl in Hin.
    destruct Hin as [H | []]; discriminate.
Qed.

(** [handleSave] does save: with a name that is not blank and a valid
    course among the rows, [onSave] is called, once, and the form is
    reset. *)
Lemma handleSave_saves clock st c :
  trim (GPACalculator.semesterName st) <> "" ->
  In c (GPACalculator.courses st) ->
  GPACalculator.isValidCourse c = true ->
  exists semester,
    GPACalculator.handleSave clock st =
      (GPACalculator.mkState "" [GPACalculator.emptyRow] ∅ true,
       [GPACalculator.OnSave semester; GPACalculator.SetTimeout 3000;
        GPACalculator.OnNavigate "dashboard"]).
Proof.
  intros Hname Hin Hvalid. unfold GPACalculator.handleSave.
  apply truthy_iff in Hname. rewrite Hname. simpl.
  assert (Hmem : In c (List.filter GPACalculator.isValidCourse (GPACalculator.courses st))).
  { apply filter_In. split; assumption. }
  destruct (List.filter GPACalculator.isValidCourse (GPACalculator.courses st));
    [destruct Hmem|].
  simpl. eexists. reflexivity.
Qed.

Lemma valid_rows_complete (rows : list Course.t) :
  Forall (fun c => 0 < Course.credits c /\ Course.grade c <> "")
         (List.filter GPACalculator.isValidCourse rows).
Proof.
  apply List.Forall_forall. intros c Hc. apply filter_In in Hc.
  destruct Hc as [_ Hc]. apply isValidCourse_iff in Hc. tauto.
Qed.

Lemma handleSave_consistent clock st st' calls semester :
  GPACalculator.handleSave clock st = (st', calls) ->
  In (GPACalculator.OnSave semester) calls ->
  consistent semester.
Proof.
  intros Hrun Hin.
  destruct (handleSave_OnSave_inv _ _ _ _ _ Hrun Hin) as (_ & _ & ->).
  unfold consistent. simpl.
  split; [reflexivity|]. split; [apply reduce_sum_sum_of|].
  apply valid_rows_complete.
Qed.

(** Saving and deleting keep every semester of the list consistent. *)
Lemma deliver_consistent clock st st' calls semesters :
  GPACalculator.handleSave clock st = (st', calls) ->
  Forall consistent semesters ->
  Forall consistent (App.deliver calls semesters).
Proof.
  intros Hrun.
  assert (Hcalls : forall call, In call calls ->
            forall semester, call = GPACalculator.OnSave semester ->
            consistent semester).
  { intros call Hin semester ->. eapply handleSave_consistent; eauto. }
  clear Hrun. unfold App.deliver. revert semesters.
  induction calls as [|call calls IH]; intros semesters Hall; simpl.
  - exact Hall.
  - apply IH.
    + intros call' Hin'. apply Hcalls. right. exact Hin'.
    + destruct call; try exact Hall.
      unfold App.addSemester. apply Forall_app. split; [exact Hall|].
      constructor; [|constructor].
      apply (Hcalls (GPACalculator.OnSave semester)); [left|]; reflexivity.
Qed.

Lemma deleteSemester_consistent semesters id :
  Forall consistent semesters ->
  Forall consistent (App.deleteSemester semesters id).
Proof.
  intros Hall. unfold App.deleteSemester.
  apply List.Forall_forall. intros s Hs. apply filter_In in Hs.
  destruct Hs as [Hs _]. revert s Hs. apply List.Forall_forall. exact Hall.
Qed.

(** Consistent semesters have non-negative total credits. *)
Lemma consistent_totalCredits_nonneg (semesters : list Semester.t) :
  Forall consistent semesters ->
  Forall (fun s => 0 <= Semester.totalCredits s) semesters.
Proof.
  intros Hall. eapply Forall_impl; [exact Hall|].
  intros s (_ & Htotal & Hcourses). simpl. rewrite Htotal.
  apply sum_of_nonneg. eapply Forall_impl; [exact Hcourses|].
  intros c [Hc _]. simpl. apply Qlt_le_weak. exact Hc.
Qed.

(** C8. Every Semester that [handleSave] hands to [onSave] has
    gpa = calculateGPA(courses) and totalCredits = the sum of the credits
    of its courses; each of its courses has credits > 0 and a grade that is
    not empty: its courses are the rows of the form that pass the filter,
    so a row with zero credits or without a grade is left out of the
    semester and of both aggregates. *)
Theorem handleSave_semester_invariant clock st st' calls semester :
  GPACalculator.handleSave clock st = (st', calls) ->
  In (GPACalculator.OnSave semester) calls ->
  Semester.gpa semester = calculateGPA (Semester.courses semester) /\
  Semester.totalCredits semester == sum_of Course.credits (Semester.courses semester) /\
  Forall (fun c => 0 < Course.credits c /\ Course.grade c <> "")
         (Semester.courses semester) /\
  Semester.courses semester =
    List.filter GPACalculator.isValidCourse (GPACalculator.courses st) /\
  (forall c, In c (GPACalculator.courses st) ->
     Course.credits c <= 0 \/ Course.grade c = "" ->
     ~ In c (Semester.courses semester)).
Proof.
  intros Hrun Hin.
  destruct (handleSave_OnSave_inv _ _ _ _ _ Hrun Hin) as (_ & _ & ->).
  simpl. split; [reflexivity|]. split; [apply reduce_sum_sum_of|].
  assert (Hall : forall c,
    In c (List.filter GPACalculator.isValidCourse (GPACalculator.courses st)) ->
    0 < Course.credits c /\ Course.grade c <> "").
  { intros c Hc. apply filter_In in Hc. destruct Hc as [_ Hc].
    apply isValidCourse_iff in Hc. tauto. }
  split; [|split].
  - apply List.Forall_forall. exact Hall.
  - reflexivity.
  - intros c _ Hbad Hc. destruct (Hall c Hc) as [Hcredits Hgrade].
    destruct Hbad as [Hle | Hempty]; [|contradiction].
    apply (Qlt_not_le _ _ Hcredits Hle).
Qed.

Lemma handleSave_semester_invariant_witness :
  let rows :=
    [Course.mk "1" "Algebra" 3 "A" 4; Course.mk "2" "Seminar" 0 "A" 4;
     Course.mk "3" "Logic" 4 "B" 3; Course.mk "4" "Thesis" 6 "" 0] in
  let st := GPACalculator.mkState "Fall 2024" rows ∅ false in
  let kept := [Course.mk "1" "Algebra" 3 "A" 4; Course.mk "3" "Logic" 4 "B" 3] in
  let semester :=
    Semester.mk "1730000000000" "Fall 2024" kept (calculateGPA kept)
      (reduce_sum Course.credits kept) "2024-10-27T03:33:20.000Z" in
  Semester.gpa semester = calculateGPA (Semester.courses semester) /\
  Semester.totalCredits semester == sum_of Course.credits (Semester.courses semester) /\
  Forall (fun c => 0 < Course.credits c /\ Course.grade c <> "")
         (Semester.courses semester) /\
  Semester.courses semester = List.filter GPACalculator.isValidCourse rows /\
  (forall c, In c rows ->
     Course.credits c <= 0 \/ Course.grade c = "" ->
     ~ In c (Semester.courses semester)).
Proof.
  intros rows st kept semester.
  apply (handleSave_semester_invariant
           (GPACalculator.mkClock "1730000000000" "2024-10-27T03:33:20.000Z") st
           (GPACalculator.mkState "" [GPACalculator.emptyRow] ∅ true)
           [GPACalculator.OnSave semester; GPACalculator.SetTimeout 3000;
            GPACalculator.OnNavigate "dashboard"] semester).
  - reflexivity.
  - left. reflexivity.
Defined.

(** A saved semester carries a positive number of credits: the lists
    [calculateCGPA] is given have non-negative total credits. *)
Lemma handleSave_totalCredits_pos clock st st' calls semester :
  GPACalculator.handleSave clock st = (st', calls) ->
  In (GPACalculator.OnSave semester) calls ->
  0 < Semester.totalCredits semester.
Proof.
  intros Hrun Hin.
  destruct (handleSave_OnSave_inv _ _ _ _ _ Hrun Hin) as (Hne & _ & ->).
  simpl. rewrite reduce_sum_sum_of. apply sum_of_pos; [exact Hne|].
  apply List.Forall_forall. intros c Hc. apply filter_In in Hc.
  destruct Hc as [_ Hc]. apply isValidCourse_iff in Hc. tauto.
Qed.

(** ** Instances *)

Lemma calculateRequiredGPA_formula_witness :
  calculateRequiredGPA 3 30 (7 # 2) 0 == 0 /\
  calculateRequiredGPA 3 30 (7 # 2) 10 == ((7 # 2) * (30 + 10) - 3 * 30) / 10.
Proof.
  split.
  - apply (proj1 (proj1 calculateRequiredGPA_formula 3 30 (7 # 2) 0)).
    discriminate.
  - apply (proj2 (proj1 calculateRequiredGPA_formula 3 30 (7 # 2) 10)).
    reflexivity.
Defined.

Lemma getGradeScale_tables_witness :
  getGradeScale 5 !! "A+" = Some 5 /\
  getGradeScale 4 !! "F" = Some 0 /\
  getGradeScale (9 # 2) !! "A+" = Some 4 /\
  getGradeScale (9 # 2) = getGradeScale 4.
Proof.
  destruct getGradeScale_tables as (H5 & H4 & Hother & _).
  split; [|split; [|split]].
  - apply (H5 5 "A+"). reflexivity.
  - apply (H4 4 "F"). discriminate.
  - apply (H4 (9 # 2) "A+"). discriminate.
  - apply (Hother (9 # 2)). discriminate.
Defined.

Lemma getAcademicClass_ladder_witness :
  class (getAcademicClass (7 # 2) (10 # 2)) = "Second Class (Upper)" /\
  class (getAcademicClass (7 # 2) 4) = "Second Class (Upper)" /\
  class (getAcademicClass (1 # 2) 3) = "Fail".
Proof.
  destruct getAcademicClass_ladder as (H & _).
  split; [|split].
  - apply (proj1 (H (7 # 2) (10 # 2))). reflexivity.
  - apply (proj2 (H (7 # 2) 4)). discriminate.
  - apply (proj2 (H (1 # 2) 3)). discriminate.
Defined.

(** * Further properties of the grade calculus *)

(** ** More on sums *)

Lemma sum_of_app {A : Type} (f : A -> Q) (xs ys : list A) :
  sum_of f (xs ++ ys) == sum_of f xs + sum_of f ys.
Proof.
  induction xs as [|x rest IH]; simpl.
  - ring.
  - rewrite IH. ring.
Qed.

Lemma sum_of_Permutation {A : Type} (f : A -> Q) (xs ys : list A) :
  Permutation xs ys -> sum_of f xs == sum_of f ys.
Proof.
  induction 1 as [|x xs ys _ IH|x y xs|xs ys zs _ IH1 _ IH2]; simpl.
  - reflexivity.
  - rewrite IH. reflexivity.
  - ring.
  - rewrite IH1. exact IH2.
Qed.

Lemma sum_of_weighted_bounds {A : Type} (v w : A -> Q) (lo hi : Q) (xs : list A) :
  Forall (fun x => 0 <= w x /\ lo <= v x /\ v x <= hi) xs ->
  lo * sum_of w xs <= sum_of (fun x => v x * w x) xs /\
  sum_of (fun x => v x * w x) xs <= hi * sum_of w xs.
Proof.
  induction 1 as [|x rest (Hw & Hlo & Hhi) _ [IHlo IHhi]]; simpl.
  - split; lra.
  - assert (0 <= (v x - lo) * w x) by (apply Qmult_le_0_compat; lra).
    assert (0 <= (hi - v x) * w x) by (apply Qmult_le_0_compat; lra).
    split; lra.
Qed.

Lemma sum_of_zero_weights {A : Type} (v w : A -> Q) (xs : list A) :
  Forall (fun x => 0 <= w x) xs ->
  sum_of w xs == 0 ->
  sum_of (fun x => v x * w x) xs == 0.
Proof.
  induction 1 as [|x rest Hx Hrest IH]; simpl; intros Hsum.
  - reflexivity.
  - pose proof (sum_of_nonneg w rest Hrest) as Hnn.
    assert (Hw : w x == 0) by lra.
    assert (Hr : sum_of w rest == 0) by lra.
    rewrite (IH Hr), Hw. ring.
Qed.

(** ** Edge behaviour and bounds of the weighted means *)

(** X1. Both weighted means are 0 whenever the credits do not sum to a positive
    number, a negative total included: no quotient with a non-positive
    denominator is ever returned. *)
Theorem weighted_means_nonpositive_total :
  (forall courses : list Course.t,
     sum_of Course.credits courses <= 0 -> calculateGPA courses == 0) /\
  (forall semesters : list Semester.t,
     sum_of Semester.totalCredits semesters <= 0 -> calculateCGPA semesters == 0).
Proof.
  split.
  - intros courses. apply (proj2 (calculateGPA_guard courses)).
  - intros semesters. apply (proj2 (calculateCGPA_guard semesters)).
Qed.

Lemma weighted_means_nonpositive_total_witness :
  calculateGPA [Course.mk "1" "Algebra" (- 3) "A" 4; Course.mk "2" "Logic" 2 "B" 3] == 0 /\
  calculateCGPA [Semester.mk "1" "Fall" [] 3 (- 10) "2024-09-01"] == 0.
Proof.
  split.
  - apply (proj1 weighted_means_nonpositive_total). discriminate.
  - apply (proj2 weighted_means_nonpositive_total). discriminate.
Defined.

Lemma weighted_mean_between (courses : list Course.t) (lo hi : Q) :
  Forall (fun c => 0 <= Course.credits c /\
                   lo <= Course.gradePoint c /\ Course.gradePoint c <= hi) courses ->
  0 < sum_of Course.credits courses ->
  lo <= calculateGPA courses /\ calculateGPA courses <= hi.
Proof.
  intros Hall Hsum.
  rewrite (proj1 (calculateGPA_guard courses) Hsum).
  destruct (sum_of_weighted_bounds Course.gradePoint Course.credits lo hi courses Hall)
    as [Hlo Hhi].
  split.
  - apply Qle_shift_div_l; assumption.
  - apply Qle_shift_div_r; assumption.
Qed.

(** X2. Under exact rational arithmetic: with non-negative credits, the GPA
    lies between any two bounds that enclose the grade points of the
    courses, provided the credits sum to a positive number or the bounds
    enclose 0 (the GPA of a list without credits).  (In doubles the
    quotient can leave the bounds by one rounding:
    [double_gpa_off_scale].) *)
Theorem calculateGPA_bounds (courses : list Course.t) (lo hi : Q) :
  Forall (fun c => 0 <= Course.credits c /\
                   lo <= Course.gradePoint c /\ Course.gradePoint c <= hi) courses ->
  0 < sum_of Course.credits courses \/ (lo <= 0 /\ 0 <= hi) ->
  lo <= calculateGPA courses /\ calculateGPA courses <= hi.
Proof.
  intros Hall Hcase.
  destruct (Qlt_le_dec 0 (sum_of Course.credits courses)) as [Hlt | Hle].
  - apply weighted_mean_between; assumption.
  - destruct Hcase as [Hlt | Hzero].
    + exfalso. apply (Qlt_not_le _ _ Hlt Hle).
    + rewrite (proj2 (calculateGPA_guard courses) Hle). exact Hzero.
Qed.

Lemma calculateGPA_bounds_witness :
  let courses := [Course.mk "1" "Algebra" 3 "A" 4; Course.mk "2" "Logic" 4 "C" 2] in
  2 <= calculateGPA courses /\ calculateGPA courses <= 4.
Proof.
  intros courses. apply (calculateGPA_bounds courses 2 4).
  - repeat constructor; discriminate.
  - left. reflexivity.
Defined.

(** X3. The GPA does not depend on the order of the courses. *)
Theorem calculateGPA_Permutation (courses courses' : list Course.t) :
  Permutation courses courses' ->
  calculateGPA courses == calculateGPA courses'.
Proof.
  intros Hperm.
  pose proof (sum_of_Permutation Course.credits _ _ Hperm) as Hcredits.
  pose proof (sum_of_Permutation
                (fun c => Course.gradePoint c * Course.credits c) _ _ Hperm) as Hpoints.
  destruct (calculateGPA_guard courses) as [Hpos Hzero].
  destruct (calculateGPA_guard courses') as [Hpos' Hzero'].
  destruct (Qlt_le_dec 0 (sum_of Course.credits courses)) as [Hlt | Hle].
  - rewrite (Hpos Hlt), Hpos' by (rewrite <- Hcredits; exact Hlt).
    rewrite Hcredits, Hpoints. reflexivity.
  - rewrite (Hzero Hle), Hzero' by (rewrite <- Hcredits; exact Hle).
    reflexivity.
Qed.

Lemma calculateGPA_Permutation_witness :
  calculateGPA [Course.mk "1" "Algebra" 3 "A" 4; Course.mk "2" "Logic" 4 "C" 2] ==
  calculateGPA [Course.mk "2" "Logic" 4 "C" 2; Course.mk "1" "Algebra" 3 "A" 4].
Proof.
  apply calculateGPA_Permutation. apply perm_swap.
Defined.

(** ** The CGPA of consistent semesters *)

Lemma sum_of_concat {A B : Type} (f : A -> Q) (g : B -> list A) (xs : list B) :
  sum_of f (List.concat (List.map g xs)) == sum_of (fun x => sum_of f (g x)) xs.
Proof.
  induction xs as [|x rest IH]; simpl.
  - reflexivity.
  - rewrite sum_of_app, IH. reflexivity.
Qed.

Lemma consistent_quality_points (s : Semester.t) :
  consistent s ->
  Semester.gpa s * Semester.totalCredits s ==
    sum_of (fun c => Course.gradePoint c * Course.credits c) (Semester.courses s).
Proof.
  intros (Hgpa & Htotal & Hcourses). rewrite Hgpa, Htotal.
  destruct (Semester.courses s) as [|c rest] eqn:E.
  - simpl. ring.
  - rewrite <- E in *.
    assert (Hsum : 0 < sum_of Course.credits (Semester.courses s)).
    { apply sum_of_pos; [rewrite E; discriminate|].
      eapply Forall_impl; [exact Hcourses|]. intros a [Ha _]. exact Ha. }
    rewrite (proj1 (calculateGPA_guard _) Hsum). field. lra.
Qed.

Lemma cgpa_of_consistent (semesters : list Semester.t) :
  Forall consistent semesters ->
  calculateCGPA semesters == calculateGPA (allCourses semesters).
Proof.
  intros Hall.
  assert (Hcredits : sum_of Semester.totalCredits semesters ==
                     sum_of Course.credits (allCourses semesters)).
  { unfold allCourses. rewrite sum_of_concat. apply sum_of_ext.
    eapply Forall_impl; [exact Hall|]. intros s (_ & Htotal & _). exact Htotal. }
  assert (Hpoints : sum_of (fun s => Semester.gpa s * Semester.totalCredits s) semesters ==
                    sum_of (fun c => Course.gradePoint c * Course.credits c)
                           (allCourses semesters)).
  { unfold allCourses. rewrite sum_of_concat. apply sum_of_ext.
    eapply Forall_impl; [exact Hall|]. intros s Hs.
    apply consistent_quality_points. exact Hs. }
  destruct (calculateCGPA_guard semesters) as [Hpos Hzero].
  destruct (calculateGPA_guard (allCourses semesters)) as [Hpos' Hzero'].
  destruct (Qlt_le_dec 0 (sum_of Semester.totalCredits semesters)) as [Hlt | Hle].
  - rewrite (Hpos Hlt), Hpos' by (rewrite <- Hcredits; exact Hlt).
    rewrite Hcredits, Hpoints. reflexivity.
  - rewrite (Hzero Hle), Hzero' by (rewrite <- Hcredits; exact Hle).
    reflexivity.
Qed.

(** X4. Under exact rational arithmetic: for semesters whose derived fields
    agree with their courses (gpa = calculateGPA(courses), totalCredits =
    the sum of the credits) and whose courses are complete (credits > 0 and
    a grade that is not empty), the credits of the list are the credits of
    all their courses and the CGPA is the GPA of all their courses taken
    together.  (In doubles the two can differ in the last place:
    [double_cgpa_allCourses].) *)
Theorem calculateCGPA_allCourses (semesters : list Semester.t) :
  Forall consistent semesters ->
  sum_of Semester.totalCredits semesters ==
    sum_of Course.credits (allCourses semesters) /\
  calculateCGPA semesters == calculateGPA (allCourses semesters).
Proof.
  intros Hall. split; [|apply cgpa_of_consistent; exact Hall].
  unfold allCourses. rewrite sum_of_concat. apply sum_of_ext.
  eapply Forall_impl; [exact Hall|]. intros s (_ & Htotal & _). exact Htotal.
Qed.

Lemma calculateCGPA_allCourses_witness :
  let fall := [Course.mk "1" "Algebra" 3 "A" 4; Course.mk "2" "Logic" 4 "B" 3] in
  let spring := [Course.mk "3" "Physics" 5 "C" 2] in
  calculateCGPA
    [Semester.mk "10" "Fall" fall (calculateGPA fall) 7 "2024-09-01";
     Semester.mk "11" "Spring" spring (calculateGPA spring) 5 "2025-02-01"] ==
  calculateGPA (fall ++ spring).
Proof.
  intros fall spring.
  apply (fun H => proj2 (calculateCGPA_allCourses
           [Semester.mk "10" "Fall" fall (calculateGPA fall) 7 "2024-09-01";
            Semester.mk "11" "Spring" spring (calculateGPA spring) 5 "2025-02-01"] H)).
  repeat constructor; simpl; discriminate.
Defined.

(** ** Projection against a history of semesters *)

(** X5. Under exact rational arithmetic (in doubles the target can be
    missed in the last place: [double_projection]): with the CGPA and the
    credits of any list of semesters as the current standing, one more
    semester of remainingCredits credits at the GPA [calculateRequiredGPA]
    returns brings the CGPA of the extended list to the target. *)
Theorem history_reaches_target
    (semesters : list Semester.t) (next : Semester.t)
    (targetCGPA remainingCredits : Q) :
  Forall (fun s => 0 <= Semester.totalCredits s) semesters ->
  0 < remainingCredits ->
  Semester.totalCredits next == remainingCredits ->
  Semester.gpa next ==
    calculateRequiredGPA (calculateCGPA semesters)
      (sum_of Semester.totalCredits semesters) targetCGPA remainingCredits ->
  calculateCGPA (semesters ++ [next]) == targetCGPA.
Proof.
  intros Hnn Hrc Htotal Hgpa.
  pose proof (sum_of_nonneg Semester.totalCredits semesters Hnn) as Hsum.
  assert (Hstanding :
    calculateCGPA semesters * sum_of Semester.totalCredits semesters ==
    sum_of (fun s => Semester.gpa s * Semester.totalCredits s) semesters).
  { destruct (calculateCGPA_guard semesters) as [Hpos Hzero].
    destruct (Qlt_le_dec 0 (sum_of Semester.totalCredits semesters)) as [Hlt | Hle].
    - rewrite (Hpos Hlt). field. lra.
    - assert (H0 : sum_of Semester.totalCredits semesters == 0) by lra.
      rewrite (sum_of_zero_weights Semester.gpa Semester.totalCredits semesters Hnn H0).
      rewrite H0. ring. }
  rewrite (proj1 (calculateCGPA_guard (semesters ++ [next]))).
  - rewrite !sum_of_app. simpl. rewrite Hgpa, Htotal.
    rewrite calculateRequiredGPA_pos by exact Hrc.
    rewrite <- Hstanding. field. split; lra.
  - rewrite sum_of_app. simpl. rewrite Htotal. lra.
Qed.

Lemma history_reaches_target_witness :
  let history :=
    [Semester.mk "1" "Fall" [] 3 12 "2024-09-01";
     Semester.mk "2" "Spring" [] (7 # 2) 18 "2025-02-01"] in
  calculateCGPA
    (history ++
     [Semester.mk "3" "Next" []
        (calculateRequiredGPA (calculateCGPA history)
           (sum_of Semester.totalCredits history) (18 # 5) 15)
        15 "2025-09-01"]) == 18 # 5.
Proof.
  intros history.
  apply (history_reaches_target history _ (18 # 5) 15).
  - repeat constructor; discriminate.
  - reflexivity.
  - reflexivity.
  - reflexivity.
Defined.

(** X6. Under exact rational arithmetic (in doubles rounding can put the
    required GPA on the other side of a target equal to the current CGPA:
    [double_projection]): with credits already earned, the required GPA
    lies on the far side of the target from the current CGPA: above the
    target exactly when the target is above the current CGPA, below it
    exactly when the target is below, and equal to it exactly when the
    target is the current CGPA. *)
Theorem calculateRequiredGPA_against_target
    (currentCGPA currentCredits targetCGPA remainingCredits : Q) :
  0 < currentCredits ->
  0 < remainingCredits ->
  let required :=
    calculateRequiredGPA currentCGPA currentCredits targetCGPA remainingCredits in
  (currentCGPA < targetCGPA <-> targetCGPA < required) /\
  (targetCGPA < currentCGPA <-> required < targetCGPA) /\
  (currentCGPA == targetCGPA <-> required == targetCGPA).
Proof.
  intros Hcc Hrc required.
  assert (Hk : 0 < currentCredits / remainingCredits).
  { apply Qlt_shift_div_l; lra. }
  assert (Hreq : required ==
            targetCGPA + (targetCGPA - currentCGPA) * (currentCredits / remainingCredits)).
  { unfold required. rewrite calculateRequiredGPA_pos by exact Hrc. field. lra. }
  rewrite Hreq. set (k := currentCredits / remainingCredits) in *.
  set (d := targetCGPA - currentCGPA).
  assert (Hpos : 0 < d -> 0 < d * k) by (intros; apply Qmult_lt_0_compat; assumption).
  assert (Hneg : d < 0 -> d * k < 0).
  { intros Hd. assert (0 < (- d) * k) by (apply Qmult_lt_0_compat; lra). lra. }
  assert (Hzero : d == 0 -> d * k == 0) by (intros ->; ring).
  assert (Hd : d == targetCGPA - currentCGPA) by reflexivity.
  destruct (Q_dec d 0) as [[Hlt | Hgt] | Heq].
  - specialize (Hneg Hlt). repeat split; intros; lra.
  - specialize (Hpos Hgt). repeat split; intros; lra.
  - specialize (Hzero Heq). repeat split; intros; lra.
Qed.

Lemma calculateRequiredGPA_against_target_witness :
  ((3 : Q) < 7 # 2 <-> 7 # 2 < calculateRequiredGPA 3 30 (7 # 2) 10) /\
  (7 # 2 < 3 <-> calculateRequiredGPA 3 30 (7 # 2) 10 < 7 # 2) /\
  (3 == 7 # 2 <-> calculateRequiredGPA 3 30 (7 # 2) 10 == 7 # 2).
Proof.
  apply (calculateRequiredGPA_against_target 3 30 (7 # 2) 10); reflexivity.
Defined.

(** ** From marks to grade points *)

Lemma num_ge_false_iff (x y : Q) : num_ge x y = false <-> x < y.
Proof.
  rewrite <- not_true_iff_false, num_ge_iff. split.
  - apply Qnot_le_lt.
  - apply Qlt_not_le.
Qed.

Lemma gradePointOf_scale5 (gradingScale : Q) (g : string) :
  num_eq gradingScale 5 = true ->
  GPACalculator.gradePointOf gradingScale g =
    match points_table_5 g with
    | Some point => if num_eq point 0 then 0 else point
    | None => 0
    end.
Proof.
  intros Hs. unfold GPACalculator.gradePointOf, getGradeScale.
  rewrite Hs, scale5_lookup. reflexivity.
Qed.

Lemma gradePointOf_scale4 (gradingScale : Q) (g : string) :
  num_eq gradingScale 5 = false ->
  GPACalculator.gradePointOf gradingScale g =
    match points_table_4 g with
    | Some point => if num_eq point 0 then 0 else point
    | None => 0
    end.
Proof.
  intros Hs. unfold GPACalculator.gradePointOf, getGradeScale.
  rewrite Hs, scale4_lookup. reflexivity.
Qed.

(** Whatever the string, the grade point read off a scale lies between 0
    and the top of the scale. *)
Lemma gradePointOf_bounds (gradingScale : Q) (g : string) :
  0 <= GPACalculator.gradePointOf gradingScale g /\
  GPACalculator.gradePointOf gradingScale g <= maxPoint gradingScale.
Proof.
  unfold maxPoint. destruct (num_eq gradingScale 5) eqn:Hs.
  - rewrite (gradePointOf_scale5 _ _ Hs). unfold points_table_5.
    repeat match goal with
      | |- context [String.eqb g ?k] => destruct (String.eqb g k)
      end; split; discriminate.
  - rewrite (gradePointOf_scale4 _ _ Hs). unfold points_table_4.
    repeat match goal with
      | |- context [String.eqb g ?k] => destruct (String.eqb g k)
      end; split; discriminate.
Qed.

Local Ltac thresholds :=
  repeat match goal with
    | H : num_ge _ _ = true |- _ => apply num_ge_iff in H
    | H : num_ge _ _ = false |- _ => apply num_ge_false_iff in H
    end.

Local Ltac ladder_eqn :=
  repeat match goal with
    | |- context [if num_ge ?m ?t then _ else _] =>
        let H := fresh "Hge" in destruct (num_ge m t) eqn:H
    end.

(** X7. The grade of marks within [0,100] is a letter of the scale in use: the
    scale has a point for it, and typing marks gives a row exactly that
    point. *)
Theorem getGradeFromMarks_on_scale (marks gradingScale : Q) :
  0 <= marks -> marks <= 100 ->
  exists point,
    getGradeScale gradingScale !! getGradeFromMarks marks gradingScale = Some point /\
    GPACalculator.gradePointOf gradingScale (getGradeFromMarks marks gradingScale) == point /\
    0 <= point /\ point <= maxPoint gradingScale.
Proof.
  intros Hlo Hhi. unfold getGradeFromMarks, GPACalculator.gradePointOf, maxPoint, getGradeScale.
  rewrite (in_range_guard_false marks Hlo Hhi).
  destruct (num_eq gradingScale 5); ladder;
    (eexists; split; [vm_compute; reflexivity|]);
    repeat split; discriminate.
Qed.

Lemma getGradeFromMarks_on_scale_witness :
  exists point,
    getGradeScale 4 !! getGradeFromMarks 72 4 = Some point /\
    GPACalculator.gradePointOf 4 (getGradeFromMarks 72 4) == point /\
    0 <= point /\ point <= maxPoint 4.
Proof.
  apply (getGradeFromMarks_on_scale 72 4); discriminate.
Defined.

(** X8. Higher marks never earn a lower grade point. *)
Theorem grade_point_monotone (marks marks' gradingScale : Q) :
  0 <= marks -> marks <= marks' -> marks' <= 100 ->
  GPACalculator.gradePointOf gradingScale (getGradeFromMarks marks gradingScale) <=
  GPACalculator.gradePointOf gradingScale (getGradeFromMarks marks' gradingScale).
Proof.
  intros Hlo Hle Hhi.
  assert (Hhi0 : marks <= 100) by lra.
  assert (Hlo' : 0 <= marks') by lra.
  unfold getGradeFromMarks, GPACalculator.gradePointOf, getGradeScale.
  rewrite (in_range_guard_false marks Hlo Hhi0),
          (in_range_guard_false marks' Hlo' Hhi).
  destruct (num_eq gradingScale 5); ladder_eqn; thresholds;
    first [ vm_compute; discriminate | exfalso; lra ].
Qed.

Lemma grade_point_monotone_witness :
  GPACalculator.gradePointOf 5 (getGradeFromMarks 58 5) <=
  GPACalculator.gradePointOf 5 (getGradeFromMarks 71 5).
Proof.
  apply grade_point_monotone; discriminate.
Defined.

(** ** From marks to the academic class *)

Lemma passing_marks_point (marks gradingScale : Q) :
  passMark gradingScale <= marks -> marks <= 100 ->
  passPoint gradingScale <=
    GPACalculator.gradePointOf gradingScale (getGradeFromMarks marks gradingScale).
Proof.
  unfold passMark, passPoint, getGradeFromMarks, GPACalculator.gradePointOf, getGradeScale.
  destruct (num_eq gradingScale 5); intros Hlo Hhi;
    (rewrite in_range_guard_false by lra);
    ladder_eqn; thresholds;
    first [ vm_compute; discriminate | exfalso; lra ].
Qed.

Lemma failing_marks_point (marks gradingScale : Q) :
  0 <= marks -> marks < passMark gradingScale ->
  getGradeFromMarks marks gradingScale = "F" /\
  GPACalculator.gradePointOf gradingScale (getGradeFromMarks marks gradingScale) = 0.
Proof.
  unfold passMark, getGradeFromMarks, GPACalculator.gradePointOf, getGradeScale.
  destruct (num_eq gradingScale 5); intros Hlo Hhi;
    (rewrite in_range_guard_false by lra);
    ladder_eqn; thresholds;
    first [ split; reflexivity | exfalso; lra ].
Qed.

Lemma class_not_Fail (cgpa gradingScale : Q) :
  passPoint gradingScale <= cgpa ->
  class (getAcademicClass cgpa gradingScale) <> "Fail".
Proof.
  unfold passPoint, getAcademicClass.
  destruct (num_eq gradingScale 5); intros Hlo;
    ladder_eqn; thresholds; simpl;
    first [ discriminate | exfalso; lra ].
Qed.

Lemma class_Fail (cgpa gradingScale : Q) :
  cgpa < passPoint gradingScale ->
  class (getAcademicClass cgpa gradingScale) = "Fail".
Proof.
  unfold passPoint, getAcademicClass.
  destruct (num_eq gradingScale 5); intros Hlo;
    ladder_eqn; thresholds; simpl;
    first [ reflexivity | exfalso; lra ].
Qed.

(** X9. Under exact rational arithmetic (in doubles a GPA on the boundary
    can round below it: [double_gpa_off_scale]).
    Marks decide the standing: when every course of a list carries credits
    and the grade point of marks at or above the pass mark of the scale (40
    on the 5.0 scale, 50 otherwise), the class of the GPA is not Fail. *)
Theorem passing_marks_never_Fail (gradingScale : Q) (courses : list Course.t) :
  courses <> [] ->
  Forall (fun c =>
            0 < Course.credits c /\
            exists marks,
              passMark gradingScale <= marks /\ marks <= 100 /\
              Course.gradePoint c =
                GPACalculator.gradePointOf gradingScale
                  (getGradeFromMarks marks gradingScale)) courses ->
  class (getAcademicClass (calculateGPA courses) gradingScale) <> "Fail".
Proof.
  intros Hne Hall. apply class_not_Fail.
  apply (weighted_mean_between courses (passPoint gradingScale) (maxPoint gradingScale)).
  - eapply Forall_impl; [exact Hall|].
    intros c (Hc & marks & Hlo & Hhi & ->). simpl.
    split; [lra|]. split.
    + apply passing_marks_point; assumption.
    + apply gradePointOf_bounds.
  - apply sum_of_pos; [exact Hne|].
    eapply Forall_impl; [exact Hall|]. intros c [Hc _]. exact Hc.
Qed.

Lemma passing_marks_never_Fail_witness :
  class (getAcademicClass
           (calculateGPA
              [Course.mk "1" "Algebra" 3 "D" (GPACalculator.gradePointOf 4 (getGradeFromMarks 50 4));
               Course.mk "2" "Logic" 4 "C" (GPACalculator.gradePointOf 4 (getGradeFromMarks 61 4))])
           4) <> "Fail".
Proof.
  apply passing_marks_never_Fail.
  - discriminate.
  - constructor; [|constructor; [|constructor]].
    + split; [reflexivity|]. exists 50. repeat split; discriminate.
    + split; [reflexivity|]. exists 61. repeat split; discriminate.
Defined.

(** X10. Conversely, when every course carries the grade point of marks in
    [0, pass mark), the GPA is 0 and the class is Fail. *)
Theorem failing_marks_Fail (gradingScale : Q) (courses : list Course.t) :
  Forall (fun c =>
            0 <= Course.credits c /\
            exists marks,
              0 <= marks /\ marks < passMark gradingScale /\
              Course.gradePoint c =
                GPACalculator.gradePointOf gradingScale
                  (getGradeFromMarks marks gradingScale)) courses ->
  calculateGPA courses == 0 /\
  class (getAcademicClass (calculateGPA courses) gradingScale) = "Fail".
Proof.
  intros Hall.
  assert (Hgpa : calculateGPA courses == 0).
  { destruct (calculateGPA_guard courses) as [Hpos Hzero].
    destruct (Qlt_le_dec 0 (sum_of Course.credits courses)) as [Hlt | Hle];
      [|exact (Hzero Hle)].
    rewrite (Hpos Hlt).
    rewrite (sum_of_ext _ (fun c => 0 * Course.credits c)).
    - rewrite sum_of_scaled. field. lra.
    - eapply Forall_impl; [exact Hall|].
      intros c (_ & marks & Hlo & Hhi & ->). simpl.
      rewrite (proj2 (failing_marks_point marks gradingScale Hlo Hhi)).
      reflexivity. }
  split; [exact Hgpa|].
  apply class_Fail. rewrite Hgpa.
  unfold passPoint. destruct (num_eq gradingScale 5); reflexivity.
Qed.

Lemma failing_marks_Fail_witness :
  let courses :=
    [Course.mk "1" "Algebra" 3 "F" (GPACalculator.gradePointOf 5 (getGradeFromMarks 39 5));
     Course.mk "2" "Logic" 4 "F" (GPACalculator.gradePointOf 5 (getGradeFromMarks 12 5))] in
  calculateGPA courses == 0 /\
  class (getAcademicClass (calculateGPA courses) 5) = "Fail".
Proof.
  intros courses. apply failing_marks_Fail.
  constructor; [|constructor; [|constructor]].
  - split; [discriminate|]. exists 39. repeat split; discriminate.
  - split; [discriminate|]. exists 12. repeat split; discriminate.
Defined.

(** * The form of the GPA calculator *)

(** ** Blank names *)

Lemma trimEnd_empty_iff (s : string) : trimEnd s = "" <-> blank s = true.
Proof.
  unfold blank. induction s as [|c rest IH]; simpl.
  - split; reflexivity.
  - rewrite andb_true_iff, <- IH.
    destruct (trimEnd rest); destruct (isWhiteSpace c); split;
      solve [ intros; split; congruence | intros [? ?]; congruence | discriminate ].
Qed.

Lemma trimStart_blank (s : string) : blank (trimStart s) = blank s.
Proof.
  unfold blank. induction s as [|c rest IH]; simpl; [reflexivity|].
  destruct (isWhiteSpace c) eqn:E; simpl.
  - exact IH.
  - rewrite E. reflexivity.
Qed.

Lemma trim_empty_iff (s : string) : trim s = "" <-> blank s = true.
Proof. unfold trim. rewrite trimEnd_empty_iff, trimStart_blank. reflexivity. Qed.

(** ** What a save decides *)

(** X11. [handleSave] calls [onSave] exactly when the semester name is not blank
    and some row is valid (name, positive credits, grade).  Otherwise it
    leaves the form as it is and raises one alert: it never calls [onSave]
    and never navigates. *)
Theorem handleSave_decides (clock : GPACalculator.Clock) (st : GPACalculator.State) :
  ((exists semester,
      In (GPACalculator.OnSave semester) (snd (GPACalculator.handleSave clock st))) <->
   blank (GPACalculator.semesterName st) = false /\
   Exists (fun c => GPACalculator.isValidCourse c = true) (GPACalculator.courses st)) /\
  ((forall semester,
      ~ In (GPACalculator.OnSave semester) (snd (GPACalculator.handleSave clock st))) ->
   fst (GPACalculator.handleSave clock st) = st /\
   exists message, snd (GPACalculator.handleSave clock st) = [GPACalculator.Alert message]).
Proof.
  assert (Hname : truthy (trim (GPACalculator.semesterName st)) = true <->
                  blank (GPACalculator.semesterName st) = false).
  { rewrite truthy_iff, trim_empty_iff. apply not_true_iff_false. }
  assert (Hrows : List.filter GPACalculator.isValidCourse (GPACalculator.courses st) <> [] <->
                  Exists (fun c => GPACalculator.isValidCourse c = true)
                         (GPACalculator.courses st)).
  { rewrite List.Exists_exists. split.
    - destruct (List.filter _ _) as [|c rest] eqn:E; [congruence|].
      intros _. exists c. apply filter_In. rewrite E. left. reflexivity.
    - intros (c & Hin & Hc) E.
      assert (Hmem : In c (List.filter GPACalculator.isValidCourse
                                       (GPACalculator.courses st)))
        by (apply filter_In; split; assumption).
      rewrite E in Hmem. destruct Hmem. }
  split.
  - split.
    + intros [semester Hin].
      destruct (GPACalculator.handleSave clock st) as [st' calls] eqn:Hrun.
      destruct (handleSave_OnSave_inv _ _ _ _ _ Hrun Hin) as (Hne & Htrim & _).
      split; [apply Hname; exact Htrim | apply Hrows; exact Hne].
    + intros [Hblank Hex]. apply Hname in Hblank. apply List.Exists_exists in Hex.
      destruct Hex as (c & Hin & Hc).
      destruct (handleSave_saves clock st c) as [semester Hrun];
        [apply truthy_iff; exact Hblank | exact Hin | exact Hc |].
      exists semester. rewrite Hrun. left. reflexivity.
  - intros Hnone. unfold GPACalculator.handleSave in *.
    destruct (truthy (trim (GPACalculator.semesterName st))); simpl in *.
    + destruct (List.filter GPACalculator.isValidCourse (GPACalculator.courses st));
        simpl in *.
      * split; [reflexivity|]. eexists. reflexivity.
      * exfalso. eapply Hnone. left. reflexivity.
    + split; [reflexivity|]. eexists. reflexivity.
Qed.

Lemma handleSave_decides_witness :
  let st :=
    GPACalculator.mkState "   " [Course.mk "1" "Algebra" 3 "A" 4] ∅ false in
  let clock := GPACalculator.mkClock "1730000000000" "2024-10-27T03:33:20.000Z" in
  fst (GPACalculator.handleSave clock st) = st /\
  exists message, snd (GPACalculator.handleSave clock st) = [GPACalculator.Alert message].
Proof.
  intros st clock.
  apply (proj2 (handleSave_decides clock st)).
  intros semester [H | []]. discriminate H.
Defined.

Lemma save_calls_shape clock st st' calls semester :
  GPACalculator.handleSave clock st = (st', calls) ->
  In (GPACalculator.OnSave semester) calls ->
  calls = [GPACalculator.OnSave semester; GPACalculator.SetTimeout 3000;
           GPACalculator.OnNavigate "dashboard"].
Proof.
  intros Hrun Hin.
  destruct (handleSave_OnSave_inv _ _ _ _ _ Hrun Hin) as (Hne & Htrim & Hsem).
  unfold GPACalculator.handleSave in Hrun. rewrite Htrim in Hrun. simpl in Hrun.
  destruct (List.filter GPACalculator.isValidCourse (GPACalculator.courses st))
    as [|c rest] eqn:E; [congruence|].
  simpl in Hrun. inversion Hrun; subst st' calls.
  rewrite Hsem. reflexivity.
Qed.

(** X12. After a save the form is back to its single empty row with the success
    message up; the GPA shown is 0 and a second click on save is rejected,
    so one filled form is saved once. *)
Theorem handleSave_resets_form clock st st' calls semester :
  GPACalculator.handleSave clock st = (st', calls) ->
  In (GPACalculator.OnSave semester) calls ->
  st' = GPACalculator.mkState "" [GPACalculator.emptyRow] ∅ true /\
  calls = [GPACalculator.OnSave semester; GPACalculator.SetTimeout 3000;
           GPACalculator.OnNavigate "dashboard"] /\
  GPACalculator.gpa st' = 0 /\
  forall clock',
    GPACalculator.handleSave clock' st' =
      (st', [GPACalculator.Alert "Please enter a semester name"]).
Proof.
  intros Hrun Hin.
  destruct (handleSave_OnSave_inv _ _ _ _ _ Hrun Hin) as (Hne & Htrim & Hsem).
  unfold GPACalculator.handleSave in Hrun. rewrite Htrim in Hrun. simpl in Hrun.
  destruct (List.filter GPACalculator.isValidCourse (GPACalculator.courses st))
    as [|c rest] eqn:E; [congruence|].
  simpl in Hrun. inversion Hrun; subst st' calls. clear Hrun.
  split; [reflexivity|]. split; [|split].
  - rewrite Hsem. reflexivity.
  - reflexivity.
  - intros clock'. reflexivity.
Qed.

Lemma handleSave_resets_form_witness :
  let st :=
    GPACalculator.mkState "Fall 2024" [Course.mk "1" "Algebra" 3 "A" 4] ∅ false in
  let clock := GPACalculator.mkClock "1730000000000" "2024-10-27T03:33:20.000Z" in
  let clock' := GPACalculator.mkClock "1730000000500" "2024-10-27T03:33:20.500Z" in
  GPACalculator.handleSave clock' (fst (GPACalculator.handleSave clock st)) =
    (fst (GPACalculator.handleSave clock st),
     [GPACalculator.Alert "Please enter a semester name"]).
Proof.
  intros st clock clock'.
  refine (proj2 (proj2 (proj2
    (handleSave_resets_form clock st
       (fst (GPACalculator.handleSave clock st))
       (snd (GPACalculator.handleSave clock st))
       (Semester.mk "1730000000000" "Fall 2024" [Course.mk "1" "Algebra" 3 "A" 4]
          (calculateGPA [Course.mk "1" "Algebra" 3 "A" 4])
          (reduce_sum Course.credits [Course.mk "1" "Algebra" 3 "A" 4])
          "2024-10-27T03:33:20.000Z") (surjective_pairing _) _))) clock').
  left. reflexivity.
Defined.

(** ** Editing the rows *)

Lemma filter_app_list {A : Type} (f : A -> bool) (xs ys : list A) :
  List.filter f (xs ++ ys) = List.filter f xs ++ List.filter f ys.
Proof.
  induction xs as [|x rest IH]; simpl; [reflexivity|].
  destruct (f x); simpl; rewrite IH; reflexivity.
Qed.

(** X13. A new row is empty: adding it changes neither the GPA shown nor the
    outcome of a save (the calls made, hence the semester saved). *)
Theorem addCourse_is_neutral (clock clock' : GPACalculator.Clock) (st : GPACalculator.State) :
  length (GPACalculator.courses (GPACalculator.addCourse clock st)) =
    S (length (GPACalculator.courses st)) /\
  GPACalculator.gpa (GPACalculator.addCourse clock st) = GPACalculator.gpa st /\
  snd (GPACalculator.handleSave clock' (GPACalculator.addCourse clock st)) =
    snd (GPACalculator.handleSave clock' st).
Proof.
  split; [|split].
  - simpl. rewrite length_app. simpl. lia.
  - unfold GPACalculator.gpa. simpl. rewrite filter_app_list. simpl.
    rewrite app_nil_r. reflexivity.
  - unfold GPACalculator.handleSave. simpl.
    destruct (truthy (trim (GPACalculator.semesterName st))); simpl; [|reflexivity].
    rewrite filter_app_list. simpl. rewrite app_nil_r.
    destruct (List.filter GPACalculator.isValidCourse (GPACalculator.courses st));
      reflexivity.
Qed.

Lemma remove_at_most_one (id : string) (rows : list Course.t) :
  NoDup (List.map Course.id rows) ->
  (length rows <=
   S (length (List.filter (fun c => negb (String.eqb (Course.id c) id)) rows)))%nat.
Proof.
  induction rows as [|c rest IH]; simpl; intros Hnd; [lia|].
  apply NoDup_cons in Hnd. destruct Hnd as [Hfresh Hnd].
  destruct (String.eqb_spec (Course.id c) id) as [E | E]; simpl.
  - assert (Hsame : List.filter (fun c0 => negb (String.eqb (Course.id c0) id)) rest = rest).
    { apply forallb_filter_id. apply forallb_forall. intros c' Hc'.
      destruct (String.eqb_spec (Course.id c') id) as [E' | E']; [|reflexivity].
      exfalso. apply Hfresh. rewrite E, <- E'.
      apply list_elem_of_In. apply in_map. exact Hc'. }
    rewrite Hsame. lia.
  - specialize (IH Hnd). lia.
Qed.

(** X14. Removing a row: the last row cannot be removed; with more than one row
    every row of that id goes, the marks typed for it are forgotten and the
    other rows stay; and when the ids of the rows are distinct, at least
    one row is left. *)
Theorem removeCourse_rows (id : string) (st : GPACalculator.State) :
  ((length (GPACalculator.courses st) <= 1)%nat -> GPACalculator.removeCourse id st = st) /\
  ((1 < length (GPACalculator.courses st))%nat ->
   (forall c, In c (GPACalculator.courses (GPACalculator.removeCourse id st)) <->
              In c (GPACalculator.courses st) /\ Course.id c <> id) /\
   GPACalculator.courseMarks (GPACalculator.removeCourse id st) !! id = None) /\
  (NoDup (List.map Course.id (GPACalculator.courses st)) ->
   GPACalculator.courses st <> [] ->
   GPACalculator.courses (GPACalculator.removeCourse id st) <> []).
Proof.
  unfold GPACalculator.removeCourse. split; [|split].
  - intros Hlen. apply Nat.ltb_ge in Hlen. rewrite Hlen. reflexivity.
  - intros Hlen. apply Nat.ltb_lt in Hlen. rewrite Hlen. simpl. split.
    + intros c. rewrite filter_In, negb_true_iff.
      destruct (String.eqb_spec (Course.id c) id); split; intros [? ?];
        split; congruence.
    + apply lookup_delete_eq.
  - intros Hnd Hne. destruct (1 <? length (GPACalculator.courses st))%nat eqn:Hlen;
      [|exact Hne].
    apply Nat.ltb_lt in Hlen. simpl.
    pose proof (remove_at_most_one id _ Hnd) as Hfew.
    intros E. rewrite E in Hfew. simpl in Hfew. lia.
Qed.

Lemma removeCourse_rows_witness :
  let st :=
    GPACalculator.mkState "Fall"
      [Course.mk "1" "Algebra" 3 "A" 4; Course.mk "2" "Logic" 4 "B" 3]
      (<["1" := 85]> ∅) false in
  GPACalculator.courses (GPACalculator.removeCourse "1" st) <> [] /\
  GPACalculator.courseMarks (GPACalculator.removeCourse "1" st) !! "1" = None /\
  GPACalculator.removeCourse "1" (GPACalculator.removeCourse "1" st) =
    GPACalculator.removeCourse "1" st.
Proof.
  intros st.
  destruct (removeCourse_rows "1" st) as (_ & Hmany & Hleft).
  destruct (removeCourse_rows "1" (GPACalculator.removeCourse "1" st)) as (Hlast & _ & _).
  split; [|split].
  - apply Hleft; [|discriminate].
    repeat constructor; simpl; rewrite ?list_elem_of_In; simpl; intuition discriminate.
  - apply Hmany. simpl. lia.
  - apply Hlast. simpl. lia.
Defined.

(** Without distinct ids the form can lose all its rows: two rows that
    share an id are removed together. *)
Example removeCourse_shared_id :
  GPACalculator.courses
    (GPACalculator.removeCourse "1"
       (GPACalculator.mkState "" [GPACalculator.emptyRow; GPACalculator.emptyRow] ∅ false))
  = [].
Proof. reflexivity. Qed.

(** X15. Typing marks for a row: the rows of that id take the grade of the
    marks and its point on the scale; ids, names and credits of all rows and
    every field of the other rows stay; the marks are kept under the id. *)
Theorem updateMarks_rows (gradingScale : Q) (id : string) (marks : Q)
    (st : GPACalculator.State) :
  let st' := GPACalculator.updateMarks gradingScale id marks st in
  List.map Course.id (GPACalculator.courses st') =
    List.map Course.id (GPACalculator.courses st) /\
  List.map Course.name (GPACalculator.courses st') =
    List.map Course.name (GPACalculator.courses st) /\
  List.map Course.credits (GPACalculator.courses st') =
    List.map Course.credits (GPACalculator.courses st) /\
  (forall c, In c (GPACalculator.courses st') -> Course.id c = id ->
     Course.grade c = getGradeFromMarks marks gradingScale /\
     Course.gradePoint c =
       GPACalculator.gradePointOf gradingScale (getGradeFromMarks marks gradingScale)) /\
  (forall c, In c (GPACalculator.courses st') -> Course.id c <> id ->
     In c (GPACalculator.courses st)) /\
  GPACalculator.courseMarks st' !! id = Some marks /\
  (forall id', id' <> id ->
     GPACalculator.courseMarks st' !! id' = GPACalculator.courseMarks st !! id').
Proof.
  intros st'. subst st'. unfold GPACalculator.updateMarks. simpl.
  assert (Hmap : forall (B : Type) (f : Course.t -> B),
            (forall c g p,
               f (Course.mk (Course.id c) (Course.name c) (Course.credits c) g p) = f c) ->
            List.map f
              (List.map
                 (fun course =>
                    if String.eqb (Course.id course) id then
                      Course.mk (Course.id course) (Course.name course)
                        (Course.credits course)
                        (getGradeFromMarks marks gradingScale)
                        (GPACalculator.gradePointOf gradingScale
                           (getGradeFromMarks marks gradingScale))
                    else course)
                 (GPACalculator.courses st)) =
            List.map f (GPACalculator.courses st)).
  { intros B f Hf. rewrite List.map_map. apply List.map_ext. intros c.
    destruct (String.eqb (Course.id c) id); [apply Hf | reflexivity]. }
  split; [apply Hmap; reflexivity|].
  split; [apply Hmap; reflexivity|].
  split; [apply Hmap; reflexivity|].
  split; [|split; [|split]].
  - intros c Hin Hid. apply in_map_iff in Hin. destruct Hin as (c0 & <- & _).
    destruct (String.eqb_spec (Course.id c0) id); [split; reflexivity|].
    contradiction.
  - intros c Hin Hid. apply in_map_iff in Hin. destruct Hin as (c0 & <- & Hin).
    destruct (String.eqb_spec (Course.id c0) id); [|exact Hin].
    simpl in Hid. contradiction.
  - apply lookup_insert_eq.
  - intros id' Hne. apply lookup_insert_ne. congruence.
Qed.

(** X16. Marks outside [0,100] clear the row: its grade becomes empty and its
    point 0, so the row counts neither in the GPA shown nor in a save. *)
Theorem updateMarks_out_of_range (gradingScale : Q) (id : string) (marks : Q)
    (st : GPACalculator.State) :
  marks < 0 \/ 100 < marks ->
  forall c,
    In c (GPACalculator.courses (GPACalculator.updateMarks gradingScale id marks st)) ->
    Course.id c = id ->
    Course.grade c = "" /\ Course.gradePoint c = 0 /\
    GPACalculator.isGradedCourse c = false /\
    GPACalculator.isValidCourse c = false.
Proof.
  intros Hout c Hin Hid.
  assert (Hgrade : getGradeFromMarks marks gradingScale = "").
  { unfold getGradeFromMarks. apply in_range_guard in Hout. rewrite Hout. reflexivity. }
  unfold GPACalculator.updateMarks in Hin. simpl in Hin.
  apply in_map_iff in Hin. destruct Hin as (c0 & <- & _).
  destruct (String.eqb_spec (Course.id c0) id) as [E | E]; [|contradiction].
  rewrite Hgrade.
  unfold GPACalculator.isGradedCourse, GPACalculator.isValidCourse,
    GPACalculator.gradePointOf, getGradeScale. simpl.
  rewrite !andb_false_r.
  destruct (num_eq gradingScale 5); repeat split; reflexivity.
Qed.

Lemma updateMarks_out_of_range_witness :
  let st :=
    GPACalculator.mkState "Fall" [Course.mk "1" "Algebra" 3 "A" 4] ∅ false in
  let c := Course.mk "1" "Algebra" 3 "" 0 in
  In c (GPACalculator.courses (GPACalculator.updateMarks 4 "1" 120 st)) /\
  Course.grade c = "" /\ Course.gradePoint c = 0 /\
  GPACalculator.isGradedCourse c = false /\
  GPACalculator.isValidCourse c = false.
Proof.
  intros st c.
  assert (Hin : In c (GPACalculator.courses (GPACalculator.updateMarks 4 "1" 120 st)))
    by (left; reflexivity).
  split; [exact Hin|].
  apply (updateMarks_out_of_range 4 "1" 120 st); [right; reflexivity | exact Hin |].
  reflexivity.
Defined.

(** ** The GPA shown and the GPA saved *)

Lemma filter_agree {A : Type} (f g : A -> bool) (xs : list A) :
  Forall (fun x => f x = g x) xs -> List.filter f xs = List.filter g xs.
Proof.
  induction 1 as [|x rest Hx _ IH]; simpl; [reflexivity|].
  rewrite Hx, IH. reflexivity.
Qed.

(** X17. The GPA shown counts the rows with credits and a grade, a save keeps
    only those that also have a name.  When no graded row lacks a name the
    semester is saved with the GPA that was shown. *)
Theorem saved_gpa_is_shown clock st st' calls semester :
  GPACalculator.handleSave clock st = (st', calls) ->
  In (GPACalculator.OnSave semester) calls ->
  Forall (fun c => GPACalculator.isGradedCourse c = true -> Course.name c <> "")
         (GPACalculator.courses st) ->
  Semester.gpa semester = GPACalculator.gpa st.
Proof.
  intros Hrun Hin Hnamed.
  destruct (handleSave_OnSave_inv _ _ _ _ _ Hrun Hin) as (_ & _ & ->).
  simpl. unfold GPACalculator.gpa. f_equal. apply filter_agree.
  eapply Forall_impl; [exact Hnamed|]. intros c Hc. simpl in Hc.
  unfold GPACalculator.isValidCourse, GPACalculator.isGradedCourse in *.
  destruct (num_gt (Course.credits c) 0 && truthy (Course.grade c)) eqn:E.
  - specialize (Hc eq_refl). apply truthy_iff in Hc. rewrite Hc.
    apply andb_true_iff in E. destruct E as [-> ->]. reflexivity.
  - apply andb_false_iff in E. destruct E as [-> | ->].
    + rewrite andb_false_r. reflexivity.
    + rewrite andb_false_r. reflexivity.
Qed.

Lemma saved_gpa_is_shown_witness :
  let rows := [Course.mk "1" "Algebra" 3 "A" 4; Course.mk "2" "" 0 "" 0] in
  let st := GPACalculator.mkState "Fall 2024" rows ∅ false in
  let clock := GPACalculator.mkClock "1730000000000" "2024-10-27T03:33:20.000Z" in
  let semester :=
    Semester.mk "1730000000000" "Fall 2024" [Course.mk "1" "Algebra" 3 "A" 4]
      (calculateGPA [Course.mk "1" "Algebra" 3 "A" 4])
      (reduce_sum Course.credits [Course.mk "1" "Algebra" 3 "A" 4])
      "2024-10-27T03:33:20.000Z" in
  In (GPACalculator.OnSave semester) (snd (GPACalculator.handleSave clock st)) /\
  Semester.gpa semester = GPACalculator.gpa st.
Proof.
  intros rows st clock semester.
  assert (Hin : In (GPACalculator.OnSave semester)
                   (snd (GPACalculator.handleSave clock st)))
    by (left; reflexivity).
  split; [exact Hin|].
  apply (saved_gpa_is_shown clock st (fst (GPACalculator.handleSave clock st))
           (snd (GPACalculator.handleSave clock st)) semester
           (surjective_pairing _) Hin).
  repeat constructor; simpl; discriminate.
Defined.

(** A graded row without a name is shown in the GPA but left out of the
    save: here 3.5 is shown and 3.0 is saved. *)
Example saved_gpa_differs :
  let rows := [Course.mk "1" "" 3 "A" 4; Course.mk "2" "Logic" 3 "B" 3] in
  let st := GPACalculator.mkState "Fall 2024" rows ∅ false in
  GPACalculator.gpa st == 7 # 2 /\
  exists st' semester rest,
    GPACalculator.handleSave (GPACalculator.mkClock "1" "2") st =
      (st', GPACalculator.OnSave semester :: rest) /\
    Semester.gpa semester == 3.
Proof.
  split; [reflexivity|]. do 3 eexists. split; reflexivity.
Qed.

(** ** Sessions *)

Section Session.

Variable gradingScale : Q.
Variable keeps : GPACalculator.State -> Prop.
Variable sound : GPACalculator.Call -> Prop.

Hypothesis handle_keeps :
  forall e st,
    keeps st ->
    keeps (fst (GPACalculator.handle gradingScale e st)) /\
    Forall sound (snd (GPACalculator.handle gradingScale e st)).

(** What every handler keeps, a session keeps; what every call of a handler
    satisfies, every call of a session satisfies. *)
Lemma run_keeps (events : list GPACalculator.Event) (st : GPACalculator.State) :
  keeps st ->
  keeps (fst (GPACalculator.run gradingScale events st)) /\
  Forall sound (snd (GPACalculator.run gradingScale events st)).
Proof.
  revert st. induction events as [|e rest IH]; intros st Hst; simpl.
  - split; [exact Hst | constructor].
  - destruct (handle_keeps e st Hst) as [Hst1 Hcalls1].
    destruct (GPACalculator.handle gradingScale e st) as [st1 calls1]. simpl in *.
    destruct (IH st1 Hst1) as [Hst2 Hcalls2].
    destruct (GPACalculator.run gradingScale rest st1) as [st2 calls2]. simpl in *.
    split; [exact Hst2 | apply Forall_app; split; assumption].
Qed.

End Session.

Lemma emptyRow_coherent (gradingScale : Q) (id : string) :
  coherent gradingScale (Course.mk id "" 0 "" 0).
Proof.
  unfold coherent, GPACalculator.gradePointOf, getGradeScale. simpl.
  destruct (num_eq gradingScale 5); reflexivity.
Qed.

Lemma initialState_coherent (gradingScale : Q) :
  Forall (coherent gradingScale) (GPACalculator.courses GPACalculator.initialState).
Proof. constructor; [apply emptyRow_coherent | constructor]. Qed.

Lemma filter_Forall {A : Type} (P : A -> Prop) (f : A -> bool) (xs : list A) :
  Forall P xs -> Forall P (List.filter f xs).
Proof.
  intros Hall. apply List.Forall_forall. intros x Hx. apply filter_In in Hx.
  destruct Hx as [Hx _]. revert x Hx. apply List.Forall_forall. exact Hall.
Qed.

Lemma map_Forall {A : Type} (P : A -> Prop) (f : A -> A) (xs : list A) :
  (forall x, P x -> P (f x)) -> Forall P xs -> Forall P (List.map f xs).
Proof.
  intros Hf. induction 1 as [|x rest Hx _ IH]; simpl; constructor; auto.
Qed.

Lemma handle_coherent (gradingScale : Q) (e : GPACalculator.Event)
    (st : GPACalculator.State) :
  Forall (coherent gradingScale) (GPACalculator.courses st) ->
  Forall (coherent gradingScale)
         (GPACalculator.courses (fst (GPACalculator.handle gradingScale e st))) /\
  Forall (saves_coherent gradingScale) (snd (GPACalculator.handle gradingScale e st)).
Proof.
  intros Hst. destruct e; simpl.
  - split; [exact Hst | constructor].
  - split; [|constructor]. apply map_Forall; [|exact Hst].
    intros c Hc. destruct (String.eqb (Course.id c) id); exact Hc.
  - split; [|constructor]. apply map_Forall; [|exact Hst].
    intros c Hc. destruct (String.eqb (Course.id c) id); exact Hc.
  - split; [|constructor]. apply map_Forall; [|exact Hst].
    intros c Hc. destruct (String.eqb (Course.id c) id); [reflexivity | exact Hc].
  - split; [|constructor]. unfold GPACalculator.removeCourse.
    destruct (1 <? length (GPACalculator.courses st))%nat; simpl; [|exact Hst].
    apply filter_Forall. exact Hst.
  - split; [|constructor]. apply Forall_app. split; [exact Hst|].
    constructor; [apply emptyRow_coherent | constructor].
  - destruct (GPACalculator.handleSave clock st) as [st' calls] eqn:Hrun. simpl.
    assert (Hcalls : Forall (saves_coherent gradingScale) calls).
    { apply List.Forall_forall. intros call Hin. destruct call; simpl; try exact I.
      destruct (handleSave_OnSave_inv _ _ _ _ _ Hrun Hin) as (Hne & _ & Hsem).
      split; [eapply handleSave_consistent; eassumption|].
      rewrite Hsem. simpl. split; [exact Hne|]. apply filter_Forall. exact Hst. }
    split; [|exact Hcalls].
    unfold GPACalculator.handleSave in Hrun.
    destruct (truthy (trim (GPACalculator.semesterName st))); simpl in Hrun.
    + destruct (List.filter GPACalculator.isValidCourse (GPACalculator.courses st));
        simpl in Hrun; inversion Hrun; subst; simpl; [exact Hst|].
      constructor; [apply emptyRow_coherent | constructor].
    + inversion Hrun; subst. exact Hst.
  - split; [exact Hst | constructor].
Qed.

Lemma coherent_gpa_on_scale (gradingScale : Q) (rows : list Course.t) :
  Forall (coherent gradingScale) rows ->
  Forall (fun c => 0 < Course.credits c) rows ->
  0 <= calculateGPA rows /\ calculateGPA rows <= maxPoint gradingScale.
Proof.
  intros Hcoh Hpos. destruct rows as [|c rest] eqn:E.
  - simpl. unfold maxPoint. destruct (num_eq gradingScale 5); split; discriminate.
  - rewrite <- E in *. apply weighted_mean_between.
    + apply List.Forall_forall. intros a Ha.
      pose proof (proj1 (List.Forall_forall _ _) Hcoh a Ha) as Hca.
      pose proof (proj1 (List.Forall_forall _ _) Hpos a Ha) as Hpa.
      simpl in Hpa. unfold coherent in Hca. rewrite Hca.
      split; [lra | apply gradePointOf_bounds].
    + apply sum_of_pos; [rewrite E; discriminate | exact Hpos].
Qed.

(** X18. Through a whole session of the form, started on rows whose grade point
    is the one of their grade (the initial form is such), every row keeps
    that property, and so do the courses of every semester handed to
    [onSave]. *)
Theorem session_rows_coherent (gradingScale : Q) (events : list GPACalculator.Event)
    (st0 st : GPACalculator.State) (calls : list GPACalculator.Call) :
  Forall (coherent gradingScale) (GPACalculator.courses st0) ->
  GPACalculator.run gradingScale events st0 = (st, calls) ->
  Forall (coherent gradingScale) (GPACalculator.courses st) /\
  (forall semester, In (GPACalculator.OnSave semester) calls ->
     Forall (coherent gradingScale) (Semester.courses semester)).
Proof.
  intros H0 Hrun.
  destruct (run_keeps gradingScale
              (fun s => Forall (coherent gradingScale) (GPACalculator.courses s))
              (saves_coherent gradingScale)
              (handle_coherent gradingScale) events st0 H0) as [Hst Hcalls].
  rewrite Hrun in Hst, Hcalls. simpl in Hst, Hcalls.
  split; [exact Hst|]. intros semester Hin.
  apply (proj1 (List.Forall_forall _ _) Hcalls) in Hin. simpl in Hin. tauto.
Qed.

(** X19. Under exact rational arithmetic (in doubles the GPA can pass the
    top of the scale by one rounding: [double_gpa_off_scale]).
    Through such a session the GPA shown stays between 0 and the top of
    the scale, and every semester handed to [onSave] is consistent with its
    courses and carries a GPA between 0 and the top of the scale. *)
Theorem session_gpa_on_scale (gradingScale : Q) (events : list GPACalculator.Event)
    (st0 st : GPACalculator.State) (calls : list GPACalculator.Call) :
  Forall (coherent gradingScale) (GPACalculator.courses st0) ->
  GPACalculator.run gradingScale events st0 = (st, calls) ->
  (0 <= GPACalculator.gpa st /\ GPACalculator.gpa st <= maxPoint gradingScale) /\
  (forall semester, In (GPACalculator.OnSave semester) calls ->
     consistent semester /\
     0 <= Semester.gpa semester /\ Semester.gpa semester <= maxPoint gradingScale).
Proof.
  intros H0 Hrun.
  destruct (run_keeps gradingScale
              (fun s => Forall (coherent gradingScale) (GPACalculator.courses s))
              (saves_coherent gradingScale)
              (handle_coherent gradingScale) events st0 H0) as [Hst Hcalls].
  rewrite Hrun in Hst, Hcalls. simpl in Hst, Hcalls.
  split.
  - unfold GPACalculator.gpa. apply coherent_gpa_on_scale.
    + apply filter_Forall. exact Hst.
    + apply List.Forall_forall. intros c Hc. apply filter_In in Hc.
      destruct Hc as [_ Hc]. unfold GPACalculator.isGradedCourse in Hc.
      apply andb_true_iff in Hc. destruct Hc as [Hc _].
      apply num_gt_iff in Hc. exact Hc.
  - intros semester Hin.
    apply (proj1 (List.Forall_forall _ _) Hcalls) in Hin. simpl in Hin.
    destruct Hin as (Hcons & _ & Hcoh). split; [exact Hcons|].
    destruct Hcons as (Hgpa & _ & Hcourses). rewrite Hgpa.
    apply coherent_gpa_on_scale; [exact Hcoh|].
    eapply Forall_impl; [exact Hcourses|]. intros c [Hc _]. exact Hc.
Qed.

Lemma session_gpa_on_scale_witness :
  let clock := GPACalculator.mkClock "1730000000000" "2024-10-27T03:33:20.000Z" in
  let events :=
    [GPACalculator.TypeSemesterName "Fall 2024";
     GPACalculator.TypeCourseName "1" "Algebra";
     GPACalculator.TypeCredits "1" 3;
     GPACalculator.TypeMarks "1" 85;
     GPACalculator.ClickAdd clock;
     GPACalculator.TypeCourseName "1730000000000" "Logic";
     GPACalculator.TypeCredits "1730000000000" 4;
     GPACalculator.TypeMarks "1730000000000" 120;
     GPACalculator.ClickSave clock] in
  let result := GPACalculator.run 4 events GPACalculator.initialState in
  (0 <= GPACalculator.gpa (fst result) /\ GPACalculator.gpa (fst result) <= maxPoint 4) /\
  (forall semester, In (GPACalculator.OnSave semester) (snd result) ->
     consistent semester /\
     0 <= Semester.gpa semester /\ Semester.gpa semester <= maxPoint 4).
Proof.
  intros clock events result.
  apply (session_gpa_on_scale 4 events GPACalculator.initialState).
  - apply initialState_coherent.
  - apply surjective_pairing.
Defined.

Lemma session_rows_coherent_witness :
  let clock := GPACalculator.mkClock "1730000000000" "2024-10-27T03:33:20.000Z" in
  let events :=
    [GPACalculator.TypeMarks "1" 64; GPACalculator.ClickAdd clock;
     GPACalculator.TypeMarks "1730000000000" (- 5);
     GPACalculator.ClickRemove "1"] in
  let result := GPACalculator.run 5 events GPACalculator.initialState in
  Forall (coherent 5) (GPACalculator.courses (fst result)) /\
  (forall semester, In (GPACalculator.OnSave semester) (snd result) ->
     Forall (coherent 5) (Semester.courses semester)).
Proof.
  intros clock events result.
  apply (session_rows_coherent 5 events GPACalculator.initialState).
  - apply initialState_coherent.
  - apply surjective_pairing.
Defined.

(** * The list of saved semesters *)

(** X21. A save adds at most one semester to the list, at its end: the one
    handed to [onSave]; a rejected save leaves the list as it is. *)
Theorem deliver_handleSave clock st st' calls (semesters : list Semester.t) :
  GPACalculator.handleSave clock st = (st', calls) ->
  (forall semester, In (GPACalculator.OnSave semester) calls ->
     App.deliver calls semesters = semesters ++ [semester]) /\
  ((forall semester, ~ In (GPACalculator.OnSave semester) calls) ->
   App.deliver calls semesters = semesters).
Proof.
  intros Hrun. split.
  - intros semester Hin.
    rewrite (save_calls_shape clock st st' calls semester Hrun Hin).
    reflexivity.
  - intros Hnone. unfold GPACalculator.handleSave in Hrun.
    destruct (truthy (trim (GPACalculator.semesterName st))); simpl in Hrun.
    + destruct (List.filter GPACalculator.isValidCourse (GPACalculator.courses st));
        simpl in Hrun; inversion Hrun; subst; [reflexivity|].
      exfalso. eapply Hnone. left. reflexivity.
    + inversion Hrun; subst. reflexivity.
Qed.

Lemma deliver_handleSave_witness :
  let st :=
    GPACalculator.mkState "Fall 2024" [Course.mk "1" "Algebra" 3 "A" 4] ∅ false in
  let clock := GPACalculator.mkClock "1730000000000" "2024-10-27T03:33:20.000Z" in
  let semester :=
    Semester.mk "1730000000000" "Fall 2024" [Course.mk "1" "Algebra" 3 "A" 4]
      (calculateGPA [Course.mk "1" "Algebra" 3 "A" 4])
      (reduce_sum Course.credits [Course.mk "1" "Algebra" 3 "A" 4])
      "2024-10-27T03:33:20.000Z" in
  App.deliver (snd (GPACalculator.handleSave clock st)) [] = [semester].
Proof.
  intros st clock semester.
  apply (proj1 (deliver_handleSave clock st
                  (fst (GPACalculator.handleSave clock st))
                  (snd (GPACalculator.handleSave clock st)) []
                  (surjective_pairing _)) semester).
  left. reflexivity.
Defined.

(** X22. Deleting by id removes every semester of that id and no other; adding a
    semester under an id the list does not have and deleting that id gives
    the list back. *)
Theorem deleteSemester_addSemester (semesters : list Semester.t) (semester : Semester.t) :
  (forall id s, In s (App.deleteSemester semesters id) <->
                In s semesters /\ Semester.id s <> id) /\
  (Forall (fun s => Semester.id s <> Semester.id semester) semesters ->
   App.deleteSemester (App.addSemester semesters semester) (Semester.id semester) =
     semesters).
Proof.
  unfold App.deleteSemester, App.addSemester. split.
  - intros id s. rewrite filter_In, negb_true_iff.
    destruct (String.eqb_spec (Semester.id s) id); split; intros [? ?];
      split; congruence.
  - intros Hfresh. rewrite filter_app_list. simpl.
    rewrite String.eqb_refl. simpl. rewrite app_nil_r.
    apply forallb_filter_id. apply forallb_forall. intros s Hs.
    pose proof (proj1 (List.Forall_forall _ _) Hfresh s Hs) as Hne. simpl in Hne.
    destruct (String.eqb_spec (Semester.id s) (Semester.id semester));
      [contradiction | reflexivity].
Qed.

Lemma deleteSemester_addSemester_witness :
  let fall := Semester.mk "10" "Fall" [] 3 12 "2024-09-01" in
  let spring := Semester.mk "11" "Spring" [] (7 # 2) 18 "2025-02-01" in
  App.deleteSemester (App.addSemester [fall] spring) "11" = [fall].
Proof.
  intros fall spring.
  apply (proj2 (deleteSemester_addSemester [fall] spring)).
  repeat constructor. discriminate.
Defined.

(** X23. Updating by id keeps the length of the list, replaces every semester
    of that id by the given one and leaves the others in place; under an id
    the list does not have it changes nothing. *)
Theorem updateSemester_rows (semesters : list Semester.t) (id : string)
    (updated : Semester.t) :
  length (App.updateSemester semesters id updated) = length semesters /\
  (forall i s, semesters !! i = Some s ->
     App.updateSemester semesters id updated !! i =
       Some (if String.eqb (Semester.id s) id then updated else s)) /\
  (Forall (fun s => Semester.id s <> id) semesters ->
   App.updateSemester semesters id updated = semesters).
Proof.
  unfold App.updateSemester. split; [|split].
  - apply length_map.
  - intros i s Hi. change (List.map ?f ?l) with (f <$> l).
    rewrite list_lookup_fmap, Hi. reflexivity.
  - intros Habsent. induction Habsent as [|s rest Hs _ IH]; simpl; [reflexivity|].
    destruct (String.eqb_spec (Semester.id s) id); [contradiction|].
    rewrite IH. reflexivity.
Qed.

Lemma updateSemester_rows_witness :
  let fall := Semester.mk "10" "Fall" [] 3 12 "2024-09-01" in
  let spring := Semester.mk "11" "Spring" [] (7 # 2) 18 "2025-02-01" in
  App.updateSemester [fall] "11" spring = [fall] /\
  App.updateSemester [fall; spring] "10" spring !! 0%nat = Some spring.
Proof.
  intros fall spring. split.
  - apply (proj2 (proj2 (updateSemester_rows [fall] "11" spring))).
    repeat constructor. discriminate.
  - apply (proj1 (proj2 (updateSemester_rows [fall; spring] "10" spring)) 0%nat fall).
    reflexivity.
Defined.

Lemma updateSemester_consistent semesters id updated :
  consistent updated ->
  Forall consistent semesters ->
  Forall consistent (App.updateSemester semesters id updated).
Proof.
  intros Hup Hall. unfold App.updateSemester. apply map_Forall; [|exact Hall].
  intros s Hs. destruct (String.eqb (Semester.id s) id); assumption.
Qed.

(** X24. The list of saved semesters stays consistent (gpa and totalCredits of
    each semester agree with its courses, all of them complete) under a
    save of the form, under a deletion, and under an update by a consistent
    semester; under exact rational arithmetic the CGPA of the list is then
    the GPA of all its courses (in doubles the two can differ in the last
    place: [double_cgpa_allCourses]). *)
Theorem semesters_stay_consistent (semesters : list Semester.t) :
  Forall consistent semesters ->
  (forall clock st st' calls,
     GPACalculator.handleSave clock st = (st', calls) ->
     Forall consistent (App.deliver calls semesters) /\
     calculateCGPA (App.deliver calls semesters) ==
       calculateGPA (allCourses (App.deliver calls semesters))) /\
  (forall id,
     Forall consistent (App.deleteSemester semesters id) /\
     calculateCGPA (App.deleteSemester semesters id) ==
       calculateGPA (allCourses (App.deleteSemester semesters id))) /\
  (forall id updated,
     consistent updated ->
     Forall consistent (App.updateSemester semesters id updated) /\
     calculateCGPA (App.updateSemester semesters id updated) ==
       calculateGPA (allCourses (App.updateSemester semesters id updated))).
Proof.
  intros Hall.
  assert (Hcgpa : forall l, Forall consistent l ->
            Forall consistent l /\ calculateCGPA l == calculateGPA (allCourses l)).
  { intros l Hl. split; [exact Hl | apply cgpa_of_consistent; exact Hl]. }
  split; [|split].
  - intros clock st st' calls Hrun. apply Hcgpa.
    eapply deliver_consistent; eassumption.
  - intros id. apply Hcgpa. apply deleteSemester_consistent. exact Hall.
  - intros id updated Hup. apply Hcgpa. apply updateSemester_consistent; assumption.
Qed.

Lemma semesters_stay_consistent_witness :
  let fall := [Course.mk "1" "Algebra" 3 "A" 4; Course.mk "2" "Logic" 4 "B" 3] in
  let saved := [Semester.mk "10" "Fall" fall (calculateGPA fall) 7 "2024-09-01"] in
  let st :=
    GPACalculator.mkState "Spring" [Course.mk "1" "Physics" 5 "C" 2] ∅ false in
  let clock := GPACalculator.mkClock "1730000000000" "2024-10-27T03:33:20.000Z" in
  let after := App.deliver (snd (GPACalculator.handleSave clock st)) saved in
  Forall consistent after /\ calculateCGPA after == calculateGPA (allCourses after).
Proof.
  intros fall saved st clock after.
  refine (proj1 (semesters_stay_consistent saved _) clock st _ _ (surjective_pairing _)).
  repeat constructor; simpl; discriminate.
Defined.

(** * The form and the list together *)

Lemma cgpa_between (semesters : list Semester.t) (lo hi : Q) :
  Forall (fun s => 0 <= Semester.totalCredits s /\
                   lo <= Semester.gpa s /\ Semester.gpa s <= hi) semesters ->
  0 < sum_of Semester.totalCredits semesters ->
  lo <= calculateCGPA semesters /\ calculateCGPA semesters <= hi.
Proof.
  intros Hall Hsum.
  rewrite (proj1 (calculateCGPA_guard semesters) Hsum).
  destruct (sum_of_weighted_bounds Semester.gpa Semester.totalCredits lo hi semesters Hall)
    as [Hlo Hhi].
  split.
  - apply Qle_shift_div_l; assumption.
  - apply Qle_shift_div_r; assumption.
Qed.

Lemma deliver_Forall (keeps : Semester.t -> Prop) (calls : list GPACalculator.Call)
    (semesters : list Semester.t) :
  (forall semester, In (GPACalculator.OnSave semester) calls -> keeps semester) ->
  Forall keeps semesters ->
  Forall keeps (App.deliver calls semesters).
Proof.
  unfold App.deliver. revert semesters.
  induction calls as [|call calls IH]; intros semesters Hcalls Hall; simpl.
  - exact Hall.
  - apply IH.
    + intros semester Hin. apply Hcalls. right. exact Hin.
    + destruct call; try exact Hall.
      unfold App.addSemester. apply Forall_app. split; [exact Hall|].
      constructor; [|constructor]. apply Hcalls. left. reflexivity.
Qed.

(** X20. Under exact rational arithmetic (in doubles the bound can be passed
    by one rounding: [double_gpa_off_scale]).
    When the saved semesters are consistent and carry GPAs between 0 and
    the top of the scale, the CGPA of the list stays between 0 and the top
    of the scale after the saves of any session of the form are added. *)
Theorem session_cgpa_on_scale (gradingScale : Q) (events : list GPACalculator.Event)
    (st0 st : GPACalculator.State) (calls : list GPACalculator.Call)
    (semesters : list Semester.t) :
  Forall (coherent gradingScale) (GPACalculator.courses st0) ->
  GPACalculator.run gradingScale events st0 = (st, calls) ->
  Forall (fun s => consistent s /\
                   0 <= Semester.gpa s /\ Semester.gpa s <= maxPoint gradingScale)
         semesters ->
  0 <= calculateCGPA (App.deliver calls semesters) /\
  calculateCGPA (App.deliver calls semesters) <= maxPoint gradingScale.
Proof.
  intros H0 Hrun Hall.
  destruct (run_keeps gradingScale
              (fun s => Forall (coherent gradingScale) (GPACalculator.courses s))
              (saves_coherent gradingScale)
              (handle_coherent gradingScale) events st0 H0) as [_ Hcalls].
  rewrite Hrun in Hcalls. simpl in Hcalls.
  assert (Hafter :
    Forall (fun s => consistent s /\
                     0 <= Semester.gpa s /\ Semester.gpa s <= maxPoint gradingScale)
           (App.deliver calls semesters)).
  { apply deliver_Forall; [|exact Hall]. intros semester Hin.
    apply (proj1 (List.Forall_forall _ _) Hcalls) in Hin. simpl in Hin.
    destruct Hin as (Hcons & _ & Hcoh). split; [exact Hcons|].
    destruct Hcons as (Hgpa & _ & Hcourses). rewrite Hgpa.
    apply coherent_gpa_on_scale; [exact Hcoh|].
    eapply Forall_impl; [exact Hcourses|]. intros c [Hc _]. exact Hc. }
  assert (Hnn : Forall (fun s => 0 <= Semester.totalCredits s /\
                                 0 <= Semester.gpa s /\
                                 Semester.gpa s <= maxPoint gradingScale)
                       (App.deliver calls semesters)).
  { eapply Forall_impl; [exact Hafter|]. intros s (Hcons & Hlo & Hhi). simpl.
    split; [|split; assumption].
    destruct Hcons as (_ & Htotal & Hcourses). rewrite Htotal.
    apply sum_of_nonneg. eapply Forall_impl; [exact Hcourses|].
    intros c [Hc _]. simpl. apply Qlt_le_weak. exact Hc. }
  destruct (Qlt_le_dec 0 (sum_of Semester.totalCredits (App.deliver calls semesters)))
    as [Hlt | Hle].
  - apply cgpa_between; assumption.
  - rewrite (proj2 (calculateCGPA_guard _) Hle).
    unfold maxPoint. destruct (num_eq gradingScale 5); split; discriminate.
Qed.

Lemma session_cgpa_on_scale_witness :
  let clock := GPACalculator.mkClock "1730000000000" "2024-10-27T03:33:20.000Z" in
  let events :=
    [GPACalculator.TypeSemesterName "Spring 2025";
     GPACalculator.TypeCourseName "1" "Physics";
     GPACalculator.TypeCredits "1" 5;
     GPACalculator.TypeMarks "1" 91;
     GPACalculator.ClickSave clock] in
  let fall := [Course.mk "1" "Algebra" 3 "B" 3] in
  let saved := [Semester.mk "10" "Fall" fall (calculateGPA fall) 3 "2024-09-01"] in
  let after :=
    App.deliver (snd (GPACalculator.run 4 events GPACalculator.initialState)) saved in
  0 <= calculateCGPA after /\ calculateCGPA after <= maxPoint 4.
Proof.
  intros clock events fall saved after.
  apply (session_cgpa_on_scale 4 events GPACalculator.initialState
           (fst (GPACalculator.run 4 events GPACalculator.initialState))).
  - apply initialState_coherent.
  - apply surjective_pairing.
  - repeat constructor; simpl; discriminate.
Defined.

Lemma sum_of_filter_le {A : Type} (f : A -> Q) (keep : A -> bool) (xs : list A) :
  Forall (fun x => 0 <= f x) xs ->
  sum_of f (List.filter keep xs) <= sum_of f xs.
Proof.
  induction 1 as [|x rest Hx _ IH]; simpl.
  - apply Qle_refl.
  - destruct (keep x); simpl; lra.
Qed.

(** X25. With non-negative credits in the rows, a semester is saved with at
    most the total of credits the form showed: the rows left out of the
    save are counted in the total shown. *)
Theorem saved_credits_at_most_shown clock st st' calls semester :
  GPACalculator.handleSave clock st = (st', calls) ->
  In (GPACalculator.OnSave semester) calls ->
  Forall (fun c => 0 <= Course.credits c) (GPACalculator.courses st) ->
  0 < Semester.totalCredits semester /\
  Semester.totalCredits semester <= GPACalculator.shownCredits st.
Proof.
  intros Hrun Hin Hnn.
  destruct (handleSave_OnSave_inv _ _ _ _ _ Hrun Hin) as (Hne & _ & ->).
  simpl. unfold GPACalculator.shownCredits. rewrite !reduce_sum_sum_of. split.
  - apply sum_of_pos; [exact Hne|].
    eapply Forall_impl; [apply valid_rows_complete|]. intros c [Hc _]. exact Hc.
  - apply sum_of_filter_le. exact Hnn.
Qed.

Lemma saved_credits_at_most_shown_witness :
  let rows := [Course.mk "1" "Algebra" 3 "A" 4; Course.mk "2" "" 4 "B" 3] in
  let st := GPACalculator.mkState "Fall 2024" rows ∅ false in
  let clock := GPACalculator.mkClock "1730000000000" "2024-10-27T03:33:20.000Z" in
  let semester :=
    Semester.mk "1730000000000" "Fall 2024" [Course.mk "1" "Algebra" 3 "A" 4]
      (calculateGPA [Course.mk "1" "Algebra" 3 "A" 4])
      (reduce_sum Course.credits [Course.mk "1" "Algebra" 3 "A" 4])
      "2024-10-27T03:33:20.000Z" in
  0 < Semester.totalCredits semester /\
  Semester.totalCredits semester <= GPACalculator.shownCredits st.
Proof.
  intros rows st clock semester.
  apply (saved_credits_at_most_shown clock st
           (fst (GPACalculator.handleSave clock st))
           (snd (GPACalculator.handleSave clock st)) semester
           (surjective_pairing _)).
  - left. reflexivity.
  - repeat constructor; discriminate.
Defined.

Lemma updateMarks_rows_witness :
  let st :=
    GPACalculator.mkState "Fall"
      [Course.mk "1" "Algebra" 3 "" 0; Course.mk "2" "Logic" 4 "B" 3] ∅ false in
  let st' := GPACalculator.updateMarks 4 "1" 85 st in
  (forall c, In c (GPACalculator.courses st') -> Course.id c = "1" ->
     Course.grade c = "A" /\ Course.gradePoint c = 4) /\
  (forall c, In c (GPACalculator.courses st') -> Course.id c <> "1" ->
     In c (GPACalculator.courses st)) /\
  GPACalculator.courseMarks st' !! "1" = Some 85.
Proof.
  intros st st'.
  destruct (updateMarks_rows 4 "1" 85 st) as (_ & _ & _ & Hrow & Hothers & Hmarks & _).
  split; [exact Hrow|]. split; [exact Hothers | exact Hmarks].
Defined.

Lemma addCourse_is_neutral_witness :
  let st :=
    GPACalculator.mkState "Fall 2024" [Course.mk "1" "Algebra" 3 "A" 4] ∅ false in
  let clock := GPACalculator.mkClock "1730000000000" "2024-10-27T03:33:20.000Z" in
  GPACalculator.gpa (GPACalculator.addCourse clock st) = GPACalculator.gpa st /\
  snd (GPACalculator.handleSave clock (GPACalculator.addCourse clock st)) =
    snd (GPACalculator.handleSave clock st).
Proof.
  intros st clock.
  exact (proj2 (addCourse_is_neutral clock clock st)).
Defined.

(** * Rounding: the calculations in doubles *)

(** Where the instances of the specification are exact, the doubles agree
    with the rationals. *)
Example double_instances :
  Double.eqb (Double.calculateCGPA
                [Double.Semester.mk "1" "Fall" [] (Double.of_Z 3) (Double.of_Z 10) "d"])
             (Double.of_Z 3) = true /\
  Double.eqb (Double.calculateRequiredGPA (Double.of_Z 3) (Double.of_Z 30)
                (Double.decimal 35 1) (Double.of_Z 10))
             (Double.of_Z 5) = true /\
  class (Double.getAcademicClass (Double.decimal 36 1) (Double.of_Z 4)) = "First Class" /\
  class (Double.getAcademicClass (Double.decimal 359 2) (Double.of_Z 4)) =
    "Second Class (Upper)".
Proof. vm_compute. repeat split. Qed.

(** In doubles the claim C9 makes of every constant fails: one course of
    1.4 credits with grade point 1.5 is a non-empty list with positive
    credits and a constant grade point, and its GPA, (0 + 1.5 * 1.4) /
    (0 + 1.4), is 1.4999999999999998. *)
Lemma calculateGPA_constant_rounds :
  let k := Double.decimal 15 1 in
  let courses := [Double.Course.mk "1" "Algebra" (Double.decimal 14 1) "D" k] in
  courses <> [] /\
  Forall (fun c => Double.ltb (Double.of_Z 0) (Double.Course.credits c) = true) courses /\
  Forall (fun c => Double.eqb (Double.Course.gradePoint c) k = true) courses /\
  Double.eqb (Double.calculateGPA courses) k = false /\
  Double.ltb (Double.calculateGPA courses) k = true.
Proof.
  intros k courses. split; [discriminate|].
  split; [repeat constructor|]. split; [repeat constructor|].
  split; vm_compute; reflexivity.
Qed.

(** The same rounding takes a GPA one step above the top of the scale
    (grade point 5 with 0.49 credits gives 5.000000000000001) and a list of
    passing grades into the class Fail (grade D, 1.5 points, with 1.4
    credits on the 5.0 scale). *)
Example double_gpa_off_scale :
  Double.ltb (Double.of_Z 5)
    (Double.calculateGPA
       [Double.Course.mk "1" "Algebra" (Double.decimal 49 2) "A+" (Double.of_Z 5)])
  = true /\
  class (Double.getAcademicClass
           (Double.calculateGPA
              [Double.Course.mk "1" "Algebra" (Double.decimal 14 1) "D"
                 (Double.decimal 15 1)])
           (Double.of_Z 5)) = "Fail".
Proof. vm_compute. split; reflexivity. Qed.

(** The CGPA of two saved semesters and the GPA of their three courses
    taken together differ in the last place: 1.9375000000000002 against
    1.9375. *)
Example double_cgpa_allCourses :
  let c1 := Double.Course.mk "1" "Algebra" (Double.of_Z 2) "D" (Double.of_Z 1) in
  let c2 := Double.Course.mk "2" "Logic" (Double.of_Z 5) "C+" (Double.decimal 25 1) in
  let c3 := Double.Course.mk "3" "Physics" (Double.of_Z 1) "D" (Double.of_Z 1) in
  let fall :=
    Double.Semester.mk "10" "Fall" [c1; c2] (Double.calculateGPA [c1; c2])
      (Double.of_Z 7) "d" in
  let spring :=
    Double.Semester.mk "11" "Spring" [c3] (Double.calculateGPA [c3])
      (Double.of_Z 1) "d" in
  Double.eqb (Double.calculateCGPA [fall; spring])
             (Double.calculateGPA [c1; c2; c3]) = false /\
  Double.eqb (Double.calculateGPA [c1; c2; c3]) (Double.decimal 19375 4) = true.
Proof. vm_compute. split; reflexivity. Qed.

(** The projection misses its target in the last place: from CGPA 3.0 over
    12 credits towards 3.6 with 6 credits the required GPA is 4.8 and the
    CGPA reached is 3.5999999999999996; and from CGPA 1.1 towards the
    target 1.1 the required GPA is 1.0999999999999996, below the target. *)
Example double_projection :
  let required :=
    Double.calculateRequiredGPA (Double.of_Z 3) (Double.of_Z 12)
      (Double.decimal 36 1) (Double.of_Z 6) in
  let reached :=
    Double.calculateCGPA
      [Double.Semester.mk "1" "Fall" [] (Double.of_Z 3) (Double.of_Z 12) "d";
       Double.Semester.mk "2" "Next" [] required (Double.of_Z 6) "d"] in
  Double.ltb reached (Double.decimal 36 1) = true /\
  Double.ltb
    (Double.calculateRequiredGPA (Double.decimal 11 1) (Double.of_Z 12)
       (Double.decimal 11 1) (Double.of_Z 3))
    (Double.decimal 11 1) = true.
Proof. vm_compute. split; reflexivity. Qed.
